(** * Luckee DAO Vote SDK (Python): commitment engine and event channel

    A shallow embedding of [luckee_dao_vote_sdk/crypto.py],
    [luckee_dao_vote_sdk/client.py] and the parts of
    [luckee_dao_vote_sdk/types.py] they use, followed by the properties
    of the specification stated and settled against that embedding.

    Conventions.
    - A Python [str] is the list of its code points ([Z]); a [bytes]
      value is the list of its bytes ([Z], each in [0, 256)).
    - A call that can raise returns a [result]: [Return v] or [Raise e].
    - 32-bit words of SHA-256 are [Z] with the reduction modulo [2^32]
      written out. *)

From Stdlib Require Import ZArith List String Ascii Bool Lia.
From Stdlib Require Import DecimalString Decimal.
From stdpp Require Import base decidable option list gmap.

Import ListNotations.
Set Warnings "-register-all".
Local Open Scope Z_scope.

(* ===================================================================== *)
(** ** Python values, exceptions and results                              *)
(* ===================================================================== *)

(** A Python string: the sequence of its Unicode code points. *)
Abbreviation str := (list Z) (only parsing).

(** A string literal of this file, as a Python string (ASCII only). *)
Definition pystr (s : string) : str :=
  map (fun a => Z.of_nat (nat_of_ascii a)) (list_ascii_of_string s).

(** The pydantic models of [types.py] that the client builds from the
    body of a response. *)
Inductive model_class : Type :=
| Vote | VoteResults | VoteStats | VotePhase | CommitResponse | RevealResponse | Page.

(** The Python values the SDK passes around untyped ([Any],
    [Dict[str, Any]]): what [json.loads] and [Response.json()] produce,
    [datetime] objects, and instances of the pydantic models. A [PDict]
    lists its items in insertion order; its keys are distinct. *)
Inductive pyobj : Type :=
| PNone
| PBool (b : bool)
| PInt (n : Z)
| PFloat (mantissa exponent : Z)
| PStr (s : str)
| PList (items : list pyobj)
| PDict (items : list (str * pyobj))
| PDatetime (t : Z)
| PModel (cls : model_class) (fields : list (str * pyobj)).

(** Exceptions, by class. [VoteError] and [NetworkError] are the two
    classes of [types.py], with the attributes their [__init__] sets.
    [OtherException] is any further subclass of [Exception] raised by a
    collaborator (transport, JSON decoder, a listener), with its class
    name and its [str(e)]. *)
Inductive exn : Type :=
| UnicodeEncodeError (position : nat)
| ValueError (msg : str)
| AttributeError (msg : str)
| KeyError (key : str)
| TypeError (msg : str)
| VoteError (message : pyobj) (code : pyobj) (details : pyobj)
| NetworkError (message : pyobj) (status : pyobj) (response : pyobj)
| OtherException (class_name : string) (msg : str).

(** The name of the class of an exception. *)
Definition exn_class (e : exn) : string :=
  match e with
  | UnicodeEncodeError _ => "UnicodeEncodeError"
  | ValueError _ => "ValueError"
  | AttributeError _ => "AttributeError"
  | KeyError _ => "KeyError"
  | TypeError _ => "TypeError"
  | VoteError _ _ _ => "VoteError"
  | NetworkError _ _ _ => "NetworkError"
  | OtherException c _ => c
  end.

Inductive result (A : Type) : Type :=
| Return (a : A)
| Raise (e : exn).
Arguments Return {A} a.
Arguments Raise {A} e.

Definition bind {A B : Type} (r : result A) (k : A -> result B) : result B :=
  match r with
  | Return a => k a
  | Raise e => Raise e
  end.

Notation "'let!' x ':=' r 'in' k" := (bind r (fun x => k))
  (at level 10, x name, r at level 100, k at level 200).

(** [raises c r]: the call ended by raising an exception of class [c]. *)
Definition raises {A : Type} (c : string) (r : result A) : Prop :=
  match r with
  | Return _ => False
  | Raise e => exn_class e = c
  end.

(* ===================================================================== *)
(** ** [str.encode()]: UTF-8, strict                                      *)
(* ===================================================================== *)

Definition is_surrogate (c : Z) : bool := (0xD800 <=? c) && (c <=? 0xDFFF).

(** The UTF-8 bytes of one code point; [None] for a surrogate, which the
    strict error handler of [str.encode] refuses. *)
Definition utf8_encode_char (c : Z) : option (list Z) :=
  if c <? 0 then None
  else if c <? 0x80 then Some [c]
  else if c <? 0x800 then
    Some [Z.lor 0xC0 (Z.shiftr c 6); Z.lor 0x80 (Z.land c 0x3F)]
  else if is_surrogate c then None
  else if c <? 0x10000 then
    Some [Z.lor 0xE0 (Z.shiftr c 12);
          Z.lor 0x80 (Z.land (Z.shiftr c 6) 0x3F);
          Z.lor 0x80 (Z.land c 0x3F)]
  else if c <=? 0x10FFFF then
    Some [Z.lor 0xF0 (Z.shiftr c 18);
          Z.lor 0x80 (Z.land (Z.shiftr c 12) 0x3F);
          Z.lor 0x80 (Z.land (Z.shiftr c 6) 0x3F);
          Z.lor 0x80 (Z.land c 0x3F)]
  else None.

(** [encode_from i s]: the bytes of [s], whose first code point has
    index [i] in the string being encoded. *)
Fixpoint encode_from (i : nat) (s : str) : result (list Z) :=
  match s with
  | [] => Return []
  | c :: rest =>
      match utf8_encode_char c with
      | None => Raise (UnicodeEncodeError i)
      | Some bs => let! tl := encode_from (S i) rest in Return (bs ++ tl)
      end
  end.

(** [s.encode()] *)
Definition encode (s : str) : result (list Z) := encode_from 0 s.

(** The strings [encode] accepts: code points of the Unicode range that
    are not surrogates. *)
Definition utf8_encodable (s : str) : bool :=
  forallb (fun c => (0 <=? c) && (c <=? 0x10FFFF) && negb (is_surrogate c)) s.

(* ===================================================================== *)
(** ** [hashlib.sha256] (FIPS 180-4)                                      *)
(* ===================================================================== *)

Module SHA256.

Definition add32 (x y : Z) : Z := (x + y) mod 2 ^ 32.

Definition rotr (n x : Z) : Z :=
  Z.lor (Z.shiftr x n) ((Z.shiftl x (32 - n)) mod 2 ^ 32).

Definition not32 (x : Z) : Z := Z.lxor x 0xFFFFFFFF.

Definition Ch (x y z : Z) : Z := Z.lxor (Z.land x y) (Z.land (not32 x) z).
Definition Maj (x y z : Z) : Z :=
  Z.lxor (Z.lxor (Z.land x y) (Z.land x z)) (Z.land y z).
Definition Sigma0 (x : Z) : Z := Z.lxor (Z.lxor (rotr 2 x) (rotr 13 x)) (rotr 22 x).
Definition Sigma1 (x : Z) : Z := Z.lxor (Z.lxor (rotr 6 x) (rotr 11 x)) (rotr 25 x).
Definition sigma0 (x : Z) : Z := Z.lxor (Z.lxor (rotr 7 x) (rotr 18 x)) (Z.shiftr x 3).
Definition sigma1 (x : Z) : Z := Z.lxor (Z.lxor (rotr 17 x) (rotr 19 x)) (Z.shiftr x 10).

(** The standard defines its constants from the prime numbers: the
    initial hash value is the first 32 bits of the fractional parts of
    the square roots of the first eight primes, and the sixty-four round
    constants those of the cube roots of the first sixty-four. *)
Definition is_prime (n : Z) : bool :=
  forallb (fun k => negb (n mod Z.of_nat k =? 0)) (seq 2 (Z.to_nat n - 2)).

Definition first_primes (n : nat) : list Z :=
  firstn n (List.filter is_prime (map Z.of_nat (seq 2 310))).

(** [root3 fuel lo hi x]: the integer cube root of [x], between [lo] and
    [hi], by bisection. *)
Fixpoint root3 (fuel : nat) (lo hi x : Z) : Z :=
  match fuel with
  | O => lo
  | S fuel' =>
      if hi - lo <=? 1 then lo
      else
        let mid := (lo + hi) / 2 in
        if mid * mid * mid <=? x then root3 fuel' mid hi x
        else root3 fuel' lo mid x
  end.

Definition frac_sqrt (p : Z) : Z := Z.sqrt (p * 2 ^ 64) mod 2 ^ 32.
Definition frac_cbrt (p : Z) : Z := root3 64 0 (2 ^ 36) (p * 2 ^ 96) mod 2 ^ 32.

Definition K : list Z := map frac_cbrt (first_primes 64).

(** The eight working variables, and the hash value between blocks. *)
Record state : Type := mkState { a : Z; b : Z; c : Z; d : Z; e : Z; f : Z; g : Z; h : Z }.

Definition state_of_words (ws : list Z) : state :=
  mkState (nth 0 ws 0) (nth 1 ws 0) (nth 2 ws 0) (nth 3 ws 0)
          (nth 4 ws 0) (nth 5 ws 0) (nth 6 ws 0) (nth 7 ws 0).

Definition H0 : state := state_of_words (map frac_sqrt (first_primes 8)).

(** Padding: a [1] bit, zeros up to 56 modulo 64 bytes, and the length
    of the message in bits as a 64-bit big-endian integer. *)
Definition be_bytes (n : nat) (x : Z) : list Z :=
  map (fun i => Z.land (Z.shiftr x (8 * Z.of_nat (n - 1 - i))) 0xFF) (seq 0 n).

Definition pad (msg : list Z) : list Z :=
  let len := Z.of_nat (length msg) in
  let zeros := Z.to_nat ((55 - len) mod 64) in
  msg ++ [0x80] ++ repeat 0 zeros ++ be_bytes 8 ((8 * len) mod 2 ^ 64).

Fixpoint chunks (n : nat) (size : nat) (l : list Z) : list (list Z) :=
  match n with
  | O => []
  | S n' => firstn size l :: chunks n' size (skipn size l)
  end.

Definition be_word (bs : list Z) : Z :=
  fold_left (fun acc x => acc * 256 + x) bs 0.

Definition block_words (blk : list Z) : list Z :=
  map be_word (chunks 16 4 blk).

(** The message schedule: sixteen words of the block extended to
    sixty-four. *)
Fixpoint extend (n : nat) (w : list Z) : list Z :=
  match n with
  | O => w
  | S n' =>
      let t := length w in
      let wt := add32 (add32 (add32 (sigma1 (nth (t - 2) w 0)) (nth (t - 7) w 0))
                             (sigma0 (nth (t - 15) w 0)))
                      (nth (t - 16) w 0) in
      extend n' (w ++ [wt])
  end.

Definition schedule (blk : list Z) : list Z := extend 48 (block_words blk).

Definition round (s : state) (kw : Z * Z) : state :=
  let (k, w) := kw in
  let t1 := add32 (add32 (add32 (add32 (h s) (Sigma1 (e s))) (Ch (e s) (f s) (g s))) k) w in
  let t2 := add32 (Sigma0 (a s)) (Maj (a s) (b s) (c s)) in
  mkState (add32 t1 t2) (a s) (b s) (c s) (add32 (d s) t1) (e s) (f s) (g s).

Definition compress (hv : state) (blk : list Z) : state :=
  let s := fold_left round (combine K (schedule blk)) hv in
  mkState (add32 (a hv) (a s)) (add32 (b hv) (b s)) (add32 (c hv) (c s))
          (add32 (d hv) (d s)) (add32 (e hv) (e s)) (add32 (f hv) (f s))
          (add32 (g hv) (g s)) (add32 (h hv) (h s)).

Definition state_words (s : state) : list Z :=
  [a s; b s; c s; d s; e s; f s; g s; h s].

(** [hashlib.sha256(msg).digest()]: thirty-two bytes. *)
Definition digest (msg : list Z) : list Z :=
  let p := pad msg in
  let blocks := chunks (length p / 64) 64 p in
  flat_map (be_bytes 4) (state_words (fold_left compress blocks H0)).

(** One hexadecimal digit, lower case, as [binascii.hexlify] writes it. *)
Definition hexdigit (n : Z) : Z := if n <? 10 then 48 + n else 87 + n.

Definition hexlify (bs : list Z) : str :=
  flat_map (fun x => [hexdigit (Z.shiftr x 4); hexdigit (Z.land x 0xF)]) bs.

(** [hashlib.sha256(msg).hexdigest()] *)
Definition hexdigest (msg : list Z) : str := hexlify (digest msg).

End SHA256.

(* ===================================================================== *)
(** ** [secrets] and [os.urandom]                                         *)
(* ===================================================================== *)

(** The operating system's randomness: an unbounded supply of bytes, of
    which each call consumes a prefix. *)
Definition entropy : Type := nat -> Z.

(** [os.urandom(n)] on a 64-bit platform. The argument is converted to
    a C [ssize_t] first, which fails outside [-2^63, 2^63); a negative
    size is then refused; a size that a [bytes] object cannot have (its
    header takes 33 bytes) is refused by the allocation. Below that the
    bytes are returned: running out of memory is not modelled. *)
Definition urandom (n : Z) (rng : entropy) : result (list Z) * entropy :=
  if (n <? - 2 ^ 63) || (2 ^ 63 <=? n) then
    (Raise (OtherException "OverflowError"
              (pystr "Python int too large to convert to C ssize_t")), rng)
  else if n <? 0 then (Raise (ValueError (pystr "negative argument not allowed")), rng)
  else if 2 ^ 63 - 33 <=? n then
    (Raise (OtherException "OverflowError" (pystr "byte string is too large")), rng)
  else (Return (map (fun i => rng i mod 256) (seq 0 (Z.to_nat n))),
        fun i => rng (i + Z.to_nat n)%nat).

(** [secrets.token_hex(nbytes)]: [binascii.hexlify] of the random
    bytes, which refuses with [MemoryError] an argument whose hexadecimal
    form would be longer than a [ssize_t] can say. *)
Definition token_hex (nbytes : Z) (rng : entropy) : result str * entropy :=
  let (r, rng') := urandom nbytes rng in
  (let! bs := r in
   if (2 ^ 63 - 1) / 2 <? Z.of_nat (length bs)
   then Raise (OtherException "MemoryError" [])
   else Return (SHA256.hexlify bs),
   rng').

(* ===================================================================== *)
(** ** [int(s, 16)]                                                       *)
(* ===================================================================== *)

(** [Py_ISSPACE]: the ASCII white space of the C locale. *)
Definition Py_ISSPACE (c : Z) : bool := ((9 <=? c) && (c <=? 13)) || (c =? 32).

(** [Py_UNICODE_ISSPACE]: characters of bidirectional type WS, B or S, or
    of category Zs. *)
Definition Py_UNICODE_ISSPACE (c : Z) : bool :=
  existsb (Z.eqb c)
    [0x09; 0x0A; 0x0B; 0x0C; 0x0D; 0x1C; 0x1D; 0x1E; 0x1F; 0x20; 0x85; 0xA0;
     0x1680; 0x2000; 0x2001; 0x2002; 0x2003; 0x2004; 0x2005; 0x2006; 0x2007;
     0x2008; 0x2009; 0x200A; 0x2028; 0x2029; 0x202F; 0x205F; 0x3000].

(** The digit zero of every decimal digit script (Unicode 14.0, the
    database of CPython 3.11); the digits one to nine follow each. *)
Definition unicode_decimal_zeros : list Z :=
  [0x30; 0x660; 0x6F0; 0x7C0; 0x966; 0x9E6; 0xA66; 0xAE6; 0xB66; 0xBE6; 0xC66;
   0xCE6; 0xD66; 0xDE6; 0xE50; 0xED0; 0xF20; 0x1040; 0x1090; 0x17E0; 0x1810;
   0x1946; 0x19D0; 0x1A80; 0x1A90; 0x1B50; 0x1BB0; 0x1C40; 0x1C50; 0xA620;
   0xA8D0; 0xA900; 0xA9D0; 0xA9F0; 0xAA50; 0xABF0; 0xFF10; 0x104A0; 0x10D30;
   0x11066; 0x110F0; 0x11136; 0x111D0; 0x112F0; 0x11450; 0x114D0; 0x11650;
   0x116C0; 0x11730; 0x118E0; 0x11950; 0x11C50; 0x11D50; 0x11DA0; 0x16A60;
   0x16AC0; 0x16B50; 0x1D7CE; 0x1D7D8; 0x1D7E2; 0x1D7EC; 0x1D7F6; 0x1E140;
   0x1E2F0; 0x1E950; 0x1FBF0].

(** [Py_UNICODE_TODECIMAL]: the decimal value of a digit, if it is one. *)
Definition Py_UNICODE_TODECIMAL (c : Z) : option Z :=
  match find (fun z => (z <=? c) && (c <? z + 10)) unicode_decimal_zeros with
  | Some z => Some (c - z)
  | None => None
  end.

(** [_PyLong_DigitValue]: the value of an ASCII digit or letter, 37 for
    every other character. *)
Definition PyLong_DigitValue (c : Z) : Z :=
  if (48 <=? c) && (c <=? 57) then c - 48
  else if (97 <=? c) && (c <=? 122) then c - 87
  else if (65 <=? c) && (c <=? 90) then c - 55
  else 37.

(** The loop of [_PyUnicode_TransformDecimalAndSpaceToASCII]: white
    space becomes a blank, a decimal digit its ASCII digit, and the first
    other character above 126 a question mark that ends the output. *)
Fixpoint transform_loop (s : str) : str :=
  match s with
  | [] => []
  | ch :: rest =>
      if ch <? 127 then ch :: transform_loop rest
      else if Py_UNICODE_ISSPACE ch then 32 :: transform_loop rest
      else match Py_UNICODE_TODECIMAL ch with
           | Some dv => (48 + dv) :: transform_loop rest
           | None => [63]
           end
  end.

Definition PyUnicode_TransformDecimalAndSpaceToASCII (s : str) : str :=
  if forallb (fun ch => ch <? 128) s then s else transform_loop s.

Fixpoint skip_spaces (s : str) : str :=
  match s with
  | ch :: rest => if Py_ISSPACE ch then skip_spaces rest else s
  | [] => []
  end.

(** The digit scan of [long_from_binary_base] for base 16: digits and
    single underscores between them. Returns the value, the number of
    digits and the rest of the input; [None] is a syntax error. *)
Fixpoint scan_digits (prev : Z) (acc : Z) (digits : nat) (s : str)
  : option (Z * nat * str) :=
  match s with
  | ch :: rest =>
      if ch =? 95 then
        if prev =? 95 then None else scan_digits ch acc digits rest
      else if PyLong_DigitValue ch <? 16 then
        scan_digits ch (acc * 16 + PyLong_DigitValue ch) (S digits) rest
      else if prev =? 95 then None else Some (acc, digits, s)
  | [] => if prev =? 95 then None else Some (acc, digits, s)
  end.

(** [PyLong_FromString(buffer, &end, 16)]: the value and where the parse
    ended, or [None] for a syntax error. The buffer is a C string: a NUL
    ends it. *)
Definition PyLong_FromString (buffer : str) : option (Z * str) :=
  let s := skip_spaces buffer in
  let (sign, s) :=
    match s with
    | ch :: rest =>
        if ch =? 43 then (1, rest)
        else if ch =? 45 then (-1, rest)
        else (1, s)
    | [] => (1, s)
    end in
  let s :=
    match s with
    | c0 :: c1 :: rest =>
        if (c0 =? 48) && ((c1 =? 120) || (c1 =? 88)) then
          match rest with
          | c2 :: rest' => if c2 =? 95 then rest' else rest
          | [] => rest
          end
        else s
    | _ => s
    end in
  let leading_underscore :=
    match s with
    | ch :: _ => ch =? 95
    | [] => false
    end in
  if leading_underscore then None
  else
    match scan_digits 0 0 0 s with
    | None => None
    | Some (z, digits, rest) =>
        match digits with
        | O => None
        | S _ =>
            let rest := skip_spaces rest in
            match rest with
            | [] => Some (sign * z, rest)
            | ch :: _ => if ch =? 0 then Some (sign * z, rest) else None
            end
        end
    end.

Definition invalid_literal : exn :=
  ValueError (pystr "invalid literal for int() with base 16").

(** [int(s, 16)] for a string [s] ([PyLong_FromUnicodeObject]). *)
Definition int16 (s : str) : result Z :=
  match PyLong_FromString (PyUnicode_TransformDecimalAndSpaceToASCII s) with
  | Some (z, []) => Return z
  | _ => Raise invalid_literal
  end.

(* ===================================================================== *)
(** ** [crypto.py]                                                        *)
(* ===================================================================== *)

(** [generate_salt()] *)
Definition generate_salt (rng : entropy) : result str * entropy := token_hex 32 rng.

(** [generate_id()] *)
Definition generate_id (rng : entropy) : result str * entropy := token_hex 16 rng.

(** [create_commitment(value, salt)] *)
Definition create_commitment (value salt : str) : result str :=
  let combined := value ++ pystr ":" ++ salt in
  let! bs := encode combined in
  Return (SHA256.hexdigest bs).

(** [verify_commitment(value, salt, commitment_hash)] *)
Definition verify_commitment (value salt commitment_hash : str) : result bool :=
  let! expected_hash := create_commitment value salt in
  Return (bool_decide (expected_hash = commitment_hash)).

(** [create_vote_commitment(value, voter)] *)
Definition create_vote_commitment (value voter : str) (rng : entropy)
  : result (str * str) * entropy :=
  let (r, rng') := generate_salt rng in
  (let! salt := r in
   let! commitment_hash := create_commitment value salt in
   Return (commitment_hash, salt), rng').

(** [verify_vote_commitment(value, salt, commitment_hash)] *)
Definition verify_vote_commitment (value salt commitment_hash : str) : result bool :=
  verify_commitment value salt commitment_hash.

(** [hash_string(input_string)] *)
Definition hash_string (input_string : str) : result str :=
  let! bs := encode input_string in
  Return (SHA256.hexdigest bs).

(** [generate_secure_random(length)] *)
Definition generate_secure_random (length : Z) (rng : entropy) : result str * entropy :=
  token_hex length rng.

(** [is_valid_hex(input_string)]: the [try] returns [True] when [int]
    returns, the handler returns [False] on [ValueError]; any other
    exception would propagate. *)
Definition is_valid_hex (input_string : str) : result bool :=
  match int16 input_string with
  | Return _ => Return true
  | Raise (ValueError _) => Return false
  | Raise e => Raise e
  end.

(** [is_valid_commitment_hash(hash_string)] *)
Definition is_valid_commitment_hash (hash_string : str) : result bool :=
  let! v := is_valid_hex hash_string in
  Return (v && bool_decide (length hash_string = 64%nat)).

(** [is_valid_salt(salt)] *)
Definition is_valid_salt (salt : str) : result bool :=
  let! v := is_valid_hex salt in
  Return (v && bool_decide (length salt = 64%nat)).

(** [s.upper()] on a string of ASCII characters. *)
Definition upper (s : str) : str :=
  map (fun ch => if (97 <=? ch) && (ch <=? 122) then ch - 32 else ch) s.

(* ===================================================================== *)
(** ** Operations of Python objects used by [client.py]                   *)
(* ===================================================================== *)

(** [str(n)] for an integer. *)
Definition str_of_int (n : Z) : str := pystr (NilZero.string_of_int (Z.to_int n)).

(** Truth value of an object, as [or] and [not] test it. *)
Definition truthy (o : pyobj) : bool :=
  match o with
  | PNone => false
  | PBool b => b
  | PInt n => negb (n =? 0)
  | PFloat m _ => negb (m =? 0)
  | PStr s => negb (bool_decide (s = []))
  | PList l => negb (bool_decide (length l = 0%nat))
  | PDict l => negb (bool_decide (length l = 0%nat))
  | PDatetime _ => true
  | PModel _ _ => true
  end.

Fixpoint dict_lookup (items : list (str * pyobj)) (key : str) : option pyobj :=
  match items with
  | [] => None
  | (k, v) :: rest => if bool_decide (k = key) then Some v else dict_lookup rest key
  end.

(** [o.get(key, default)]: only a [dict] has the method. *)
Definition py_get (o : pyobj) (key : str) (default : pyobj) : result pyobj :=
  match o with
  | PDict items =>
      match dict_lookup items key with
      | Some v => Return v
      | None => Return default
      end
  | _ => Raise (AttributeError (pystr "object has no attribute 'get'"))
  end.

(** [o[key]] for a string key. *)
Definition py_getitem (o : pyobj) (key : str) : result pyobj :=
  match o with
  | PDict items =>
      match dict_lookup items key with
      | Some v => Return v
      | None => Raise (KeyError key)
      end
  | _ => Raise (TypeError (pystr "object is not subscriptable with a string key"))
  end.

(** The items [for item in o] visits. *)
Definition py_iter (o : pyobj) : result (list pyobj) :=
  match o with
  | PList l => Return l
  | PDict items => Return (map (fun kv => PStr (fst kv)) items)
  | PStr s => Return (map (fun ch => PStr [ch]) s)
  | _ => Raise (TypeError (pystr "object is not iterable"))
  end.

(** The keyword arguments that unpacking [o] with a double star gives. *)
Definition kwargs (o : pyobj) : result (list (str * pyobj)) :=
  match o with
  | PDict items => Return items
  | _ => Raise (TypeError (pystr "argument after ** must be a mapping"))
  end.

(** [l.remove(x)]: deletes the first item equal to [x]; [ValueError]
    when there is none. *)
Fixpoint list_remove_first {A : Type} `{EqDecision A} (x : A) (l : list A)
  : result (list A) :=
  match l with
  | [] => Raise (ValueError (pystr "list.remove(x): x not in list"))
  | y :: rest =>
      if bool_decide (y = x) then Return rest
      else let! rest' := list_remove_first x rest in Return (y :: rest')
  end.

Fixpoint mapM {A B : Type} (f : A -> result B) (l : list A) : result (list B) :=
  match l with
  | [] => Return []
  | x :: rest => let! y := f x in let! ys := mapM f rest in Return (y :: ys)
  end.

(* ===================================================================== *)
(** ** [types.py]                                                         *)
(* ===================================================================== *)

Inductive VoteStatus : Type :=
| CREATED | COMMITMENT_PHASE | REVEAL_PHASE | COMPLETED | CANCELLED.

Definition VoteStatus_value (s : VoteStatus) : str :=
  match s with
  | CREATED => pystr "Created"
  | COMMITMENT_PHASE => pystr "CommitmentPhase"
  | REVEAL_PHASE => pystr "RevealPhase"
  | COMPLETED => pystr "Completed"
  | CANCELLED => pystr "Cancelled"
  end.

Record VoteConfig : Type := {
  vc_title : str;
  vc_description : str;
  vc_template_id : str;
  vc_template_params : list (str * pyobj);
  commitment_duration_hours : Z;
  reveal_duration_hours : Z
}.

Record CommitRequest : Type := {
  cr_voter : str;
  cr_commitment_hash : str;
  cr_salt : str
}.

Record RevealRequest : Type := {
  rr_voter : str;
  rr_value : pyobj;
  rr_salt : str
}.

Record ListQuery : Type := {
  lq_page : Z;
  lq_page_size : Z;
  lq_status : option VoteStatus;
  lq_template_id : option str;
  created_after : option Z;
  created_before : option Z
}.

Record VoteSDKConfig : Type := {
  base_url : str;
  api_key : option str;
  timeout : Z;
  retries : Z;
  websocket_url : option str
}.

Record WebSocketEvent : Type := {
  type : str;
  data : pyobj;
  timestamp : Z
}.

Definition opt_obj {A : Type} (f : A -> pyobj) (o : option A) : pyobj :=
  match o with
  | Some a => f a
  | None => PNone
  end.

(** [config.dict()], [request.dict()], [query.dict()] *)
Definition VoteConfig_dict (c : VoteConfig) : pyobj :=
  PDict [(pystr "title", PStr (vc_title c));
         (pystr "description", PStr (vc_description c));
         (pystr "template_id", PStr (vc_template_id c));
         (pystr "template_params", PDict (vc_template_params c));
         (pystr "commitment_duration_hours", PInt (commitment_duration_hours c));
         (pystr "reveal_duration_hours", PInt (reveal_duration_hours c))].

Definition CommitRequest_dict (r : CommitRequest) : pyobj :=
  PDict [(pystr "voter", PStr (cr_voter r));
         (pystr "commitment_hash", PStr (cr_commitment_hash r));
         (pystr "salt", PStr (cr_salt r))].

Definition RevealRequest_dict (r : RevealRequest) : pyobj :=
  PDict [(pystr "voter", PStr (rr_voter r));
         (pystr "value", rr_value r);
         (pystr "salt", PStr (rr_salt r))].

Definition ListQuery_dict (q : ListQuery) : list (str * pyobj) :=
  [(pystr "page", PInt (lq_page q));
   (pystr "page_size", PInt (lq_page_size q));
   (pystr "status", opt_obj (fun s => PStr (VoteStatus_value s)) (lq_status q));
   (pystr "template_id", opt_obj PStr (lq_template_id q));
   (pystr "created_after", opt_obj PDatetime (created_after q));
   (pystr "created_before", opt_obj PDatetime (created_before q))].

(** [VoteError(message, code, details)]: [__init__] replaces a false
    [details] by an empty dict. *)
Definition VoteError_init (message code details : pyobj) : exn :=
  VoteError message code (if truthy details then details else PDict []).

(** [NetworkError(message, status, response)] *)
Definition NetworkError_init (message status response : pyobj) : exn :=
  NetworkError message status (if truthy response then response else PDict []).

(* ===================================================================== *)
(** ** Collaborators of the client                                        *)
(* ===================================================================== *)

(** A response of [httpx]: its status, its body as text, and what
    [response.json()] returns or raises. *)
Record Response : Type := {
  status_code : Z;
  text : str;
  json : result pyobj
}.

Record Request : Type := {
  method : str;
  url : str;
  json_body : option pyobj;
  params : option (list (str * pyobj))
}.

(** [httpx.AsyncClient(base_url=..., timeout=..., headers=...)] *)
Record AsyncClient : Type := {
  client_base_url : str;
  client_timeout : Z;
  headers : list (str * str)
}.

(** How iterating over a connection ends after its last message: the
    peer closed it normally and the iteration stops; the connection broke
    and [ConnectionClosed] is raised; another exception is raised. *)
Inductive stream_end : Type :=
| EndOfStream
| RaisesConnectionClosed
| RaisesException (e : exn).

(** An open connection of [websockets], as the listening task sees it:
    the messages it delivers, and how it ends. *)
Record WebSocket : Type := {
  frames : list str;
  ending : stream_end
}.

(** The task that [asyncio.create_task] makes of the listener. *)
Inductive Task : Type := ListenerTask.

Inductive level : Type := INFO | ERROR.

(** What the SDK does not define: the listeners of the application and
    the libraries.
    - [handler]: the callables registered as listeners, with the equality
      that [list.remove] tests; [call] runs one on an event, in a state
      [world] of the application, and it returns or raises an
      [Exception]; listeners receive the event only, not the client.
    - [str_exn e] is [str(e)].
    - [json_loads] is [json.loads].
    - [construct cls kw] is the call of the pydantic model [cls] with
      keyword arguments [kw]: the validated instance, or an exception.
    - [send] is a request of the [httpx] client.
    - [websockets_connect] is [websockets.connect]. *)
Class Collaborators : Type := {
  handler : Type;
  handler_eq_dec :: EqDecision handler;
  world : Type;
  call : handler -> WebSocketEvent -> world -> result unit * world;
  iscoroutinefunction : handler -> bool;
  str_exn : exn -> str;
  json_loads : str -> result pyobj;
  construct : model_class -> list (str * pyobj) -> result pyobj;
  construct_WebSocketEvent : list (str * pyobj) -> result WebSocketEvent;
  send : AsyncClient -> Request -> result Response;
  websockets_connect : str -> result WebSocket
}.

(** [raise_for_status()] of [httpx]: [HTTPStatusError] unless the status
    is 2xx; [true] stands for the exception, which carries the response. *)
Definition raise_for_status (response : Response) : bool :=
  negb ((200 <=? status_code response) && (status_code response <=? 299)).

(* ===================================================================== *)
(** ** [client.py]                                                        *)
(* ===================================================================== *)

Section Client.
Context `{Collaborators}.

Record VoteClient : Type := {
  config : VoteSDKConfig;
  http_client : AsyncClient;
  websocket : option WebSocket;
  event_handlers : gmap (list Z) (list handler);
  _websocket_task : option Task
}.

(** The state in which the event channel runs: the state of the
    application's listeners, the records the module's [logger] has
    written, and the invocations of listeners made so far, in order (kept
    to state properties; the code has no such list). *)
Record machine : Type := {
  app : world;
  log : list (level * str);
  calls : list (handler * WebSocketEvent)
}.

Definition logger (lv : level) (msg : str) (st : machine) : machine :=
  {| app := app st; log := log st ++ [(lv, msg)]; calls := calls st |}.

(** [VoteClient.__init__] *)
Definition VoteClient_init (cfg : VoteSDKConfig) : VoteClient :=
  {| config := cfg;
     http_client :=
       {| client_base_url := base_url cfg;
          client_timeout := timeout cfg;
          headers :=
            (pystr "Content-Type", pystr "application/json") ::
            match api_key cfg with
            | Some k =>
                if bool_decide (k = []) then []
                else [(pystr "Authorization", pystr "Bearer " ++ k)]
            | None => []
            end |};
     websocket := None;
     event_handlers := ∅;
     _websocket_task := None |}.

(** [_handle_http_error]: the [try] reads the body as JSON and takes the
    three entries with [get]; the bare [except] turns any failure of that
    into a [NetworkError]. *)
Definition _handle_http_error (response : Response) : exn :=
  let attempt :=
    let! error_data := json response in
    let! message := py_get error_data (pystr "message") (PStr (pystr "HTTP request failed")) in
    let! code := py_get error_data (pystr "code") PNone in
    let! details := py_get error_data (pystr "details") (PDict []) in
    Return (VoteError_init message code details) in
  match attempt with
  | Return e => e
  | Raise _ =>
      NetworkError_init
        (PStr (pystr "HTTP " ++ str_of_int (status_code response) ++ pystr ": " ++ text response))
        (PInt (status_code response))
        (PDict [(pystr "response", PStr (text response))])
  end.

(** The frame every request method shares: the request is sent,
    [raise_for_status] checks the status, [body] builds the value to
    return; [HTTPStatusError] goes to [_handle_http_error], every other
    [Exception] becomes a [VoteError] whose message starts with
    [failure]. *)
Definition request_method {A : Type} (failure : str) (req : Request)
    (c : VoteClient) (body : Response -> result A) : result A :=
  let wrap (e : exn) : exn :=
    VoteError_init (PStr (failure ++ str_exn e)) PNone PNone in
  match send (http_client c) req with
  | Raise e => Raise (wrap e)
  | Return response =>
      if raise_for_status response then Raise (_handle_http_error response)
      else match body response with
           | Return a => Return a
           | Raise e => Raise (wrap e)
           end
  end.

Definition post (path : str) (payload : pyobj) : Request :=
  {| method := pystr "POST"; url := path; json_body := Some payload; params := None |}.

Definition get (path : str) (query : option (list (str * pyobj))) : Request :=
  {| method := pystr "GET"; url := path; json_body := None; params := query |}.

(** The call of a model on the unpacked body of the response. *)
Definition model_of_body (cls : model_class) (response : Response) : result pyobj :=
  let! body := json response in
  let! kw := kwargs body in
  construct cls kw.

(** [create_vote] *)
Definition create_vote (c : VoteClient) (cfg : VoteConfig) : result pyobj :=
  request_method (pystr "Failed to create vote: ")
    (post (pystr "/api/v1/votes") (VoteConfig_dict cfg)) c
    (fun response => let! body := json response in py_getitem body (pystr "vote_id")).

(** [get_vote] *)
Definition get_vote (c : VoteClient) (vote_id : str) : result pyobj :=
  request_method (pystr "Failed to get vote: ")
    (get (pystr "/api/v1/votes/" ++ vote_id) None) c
    (model_of_body Vote).

(** [list_votes] *)
Definition list_votes (c : VoteClient) (query : ListQuery) : result pyobj :=
  let params :=
    List.filter (fun kv => match snd kv with PNone => false | _ => true end)
                (ListQuery_dict query) in
  request_method (pystr "Failed to list votes: ")
    (get (pystr "/api/v1/votes") (Some params)) c
    (fun response =>
       let! data := json response in
       let! raw := py_getitem data (pystr "items") in
       let! each := py_iter raw in
       let! items := mapM (fun item => let! kw := kwargs item in construct Vote kw) each in
       let! total := py_getitem data (pystr "total") in
       let! page := py_getitem data (pystr "page") in
       let! page_size := py_getitem data (pystr "page_size") in
       let! total_pages := py_getitem data (pystr "total_pages") in
       construct Page [(pystr "items", PList items); (pystr "total", total);
                       (pystr "page", page); (pystr "page_size", page_size);
                       (pystr "total_pages", total_pages)]).

(** [get_vote_stats] *)
Definition get_vote_stats (c : VoteClient) (vote_id : str) : result pyobj :=
  request_method (pystr "Failed to get vote stats: ")
    (get (pystr "/api/v1/votes/" ++ vote_id ++ pystr "/stats") None) c
    (model_of_body VoteStats).

(** [get_vote_phase] *)
Definition get_vote_phase (c : VoteClient) (vote_id : str) : result pyobj :=
  request_method (pystr "Failed to get vote phase: ")
    (get (pystr "/api/v1/votes/" ++ vote_id ++ pystr "/phase") None) c
    (model_of_body VotePhase).

(** [commit_vote] *)
Definition commit_vote (c : VoteClient) (vote_id : str) (request : CommitRequest)
  : result pyobj :=
  request_method (pystr "Failed to commit vote: ")
    (post (pystr "/api/v1/votes/" ++ vote_id ++ pystr "/commit") (CommitRequest_dict request)) c
    (model_of_body CommitResponse).

(** [reveal_vote] *)
Definition reveal_vote (c : VoteClient) (vote_id : str) (request : RevealRequest)
  : result pyobj :=
  request_method (pystr "Failed to reveal vote: ")
    (post (pystr "/api/v1/votes/" ++ vote_id ++ pystr "/reveal") (RevealRequest_dict request)) c
    (model_of_body RevealResponse).

(** [get_results] *)
Definition get_results (c : VoteClient) (vote_id : str) : result pyobj :=
  request_method (pystr "Failed to get results: ")
    (get (pystr "/api/v1/votes/" ++ vote_id ++ pystr "/results") None) c
    (model_of_body VoteResults).

(** [health_check]: the bare [except] returns [False]. *)
Definition health_check (c : VoteClient) : bool :=
  match send (http_client c) (get (pystr "/health") None) with
  | Return response => status_code response =? 200
  | Raise _ => false
  end.

(** [connect_websocket] *)
Definition connect_websocket (c : VoteClient) (st : machine)
  : result unit * VoteClient * machine :=
  let unset :=
    match websocket_url (config c) with
    | None => true
    | Some u => bool_decide (u = [])
    end in
  if unset then
    (Raise (VoteError_init (PStr (pystr "WebSocket URL not configured")) PNone PNone), c, st)
  else
    match websockets_connect (default [] (websocket_url (config c))) with
    | Return ws =>
        (Return tt,
         {| config := config c; http_client := http_client c;
            websocket := Some ws; event_handlers := event_handlers c;
            _websocket_task := Some ListenerTask |},
         logger INFO (pystr "WebSocket connected") st)
    | Raise e =>
        (Raise (VoteError_init (PStr (pystr "Failed to connect WebSocket: " ++ str_exn e))
                               PNone PNone), c, st)
    end.

(** The loop of [_handle_websocket_event] over the listeners of the
    event's type: each is called, awaited or not; an exception is logged
    and the loop goes on. *)
Fixpoint run_handlers (handlers : list handler) (event : WebSocketEvent)
    (st : machine) : machine :=
  match handlers with
  | [] => st
  | handler :: rest =>
      let (r, app') :=
        if iscoroutinefunction handler
        then call handler event (app st)
        else call handler event (app st) in
      let st' := {| app := app'; log := log st;
                    calls := calls st ++ [(handler, event)] |} in
      run_handlers rest event
        match r with
        | Return _ => st'
        | Raise e =>
            logger ERROR (pystr "Error in event handler for " ++ type event
                          ++ pystr ": " ++ str_exn e) st'
        end
  end.

(** [_handle_websocket_event] *)
Definition _handle_websocket_event (c : VoteClient) (event : WebSocketEvent)
    (st : machine) : machine :=
  let handlers := default [] (event_handlers c !! type event) in
  run_handlers handlers event st.

(** What the listener does with a message up to the dispatch: decode it
    and build the event. *)
Definition parse_message (message : str) : result WebSocketEvent :=
  let! data := json_loads message in
  let! kw := kwargs data in
  construct_WebSocketEvent kw.

(** The body of the listener's loop for one message. *)
Definition process_message (c : VoteClient) (message : str) (st : machine) : machine :=
  match parse_message message with
  | Return event => _handle_websocket_event c event st
  | Raise e =>
      logger ERROR (pystr "Failed to process WebSocket message: " ++ str_exn e) st
  end.

(** [_websocket_listener]: the loop over the messages of the connection,
    and the handlers of the way the connection ends. *)
Definition _websocket_listener (c : VoteClient) (st : machine) : machine :=
  match websocket c with
  | None =>
      logger ERROR
        (pystr "WebSocket error: " ++
         str_exn (TypeError (pystr "'async for' requires an object with __aiter__ method, got NoneType")))
        st
  | Some ws =>
      let st' := fold_left (fun s message => process_message c message s) (frames ws) st in
      match ending ws with
      | EndOfStream => st'
      | RaisesConnectionClosed => logger INFO (pystr "WebSocket connection closed") st'
      | RaisesException e => logger ERROR (pystr "WebSocket error: " ++ str_exn e) st'
      end
  end.

Definition set_event_handlers (c : VoteClient) (m : gmap (list Z) (list handler))
  : VoteClient :=
  {| config := config c; http_client := http_client c; websocket := websocket c;
     event_handlers := m; _websocket_task := _websocket_task c |}.

(** [on] *)
Definition on (c : VoteClient) (event_type : str) (h : handler) : VoteClient :=
  let m :=
    match event_handlers c !! event_type with
    | None => <[event_type := []]> (event_handlers c)
    | Some _ => event_handlers c
    end in
  set_event_handlers c (alter (fun l => l ++ [h]) event_type m).

(** [off]: the handler of [ValueError] does nothing. *)
Definition off (c : VoteClient) (event_type : str) (h : handler) : VoteClient :=
  match event_handlers c !! event_type with
  | Some l =>
      match list_remove_first h l with
      | Return l' => set_event_handlers c (<[event_type := l']> (event_handlers c))
      | Raise _ => c
      end
  | None => c
  end.

End Client.

(* ===================================================================== *)
(** ** Vocabulary of the properties                                       *)
(* ===================================================================== *)

(** The characters [0-9a-f], and the characters [0-9a-fA-F]. *)
Definition is_lower_hex (ch : Z) : bool :=
  ((48 <=? ch) && (ch <=? 57)) || ((97 <=? ch) && (ch <=? 102)).

Definition is_hex_digit (ch : Z) : bool :=
  is_lower_hex ch || ((65 <=? ch) && (ch <=? 70)).

(** The UTF-8 bytes of a string that has them. *)
Definition utf8_bytes (s : str) : list Z :=
  flat_map (fun ch => default [] (utf8_encode_char ch)) s.

Section Vocabulary.
Context `{Collaborators}.

(** The listeners registered for a type, in the order of the registry. *)
Definition handlers_for (c : VoteClient) (event_type : str) : list handler :=
  default [] (event_handlers c !! event_type).

(** A sequence of calls of [on]. *)
Definition register_all (c : VoteClient) (regs : list (list Z * handler)) : VoteClient :=
  fold_left (fun c' r => on c' (fst r) (snd r)) regs c.


(** The events of the messages that parse, in order of arrival. *)
Definition parsed_events (messages : list (list Z)) : list WebSocketEvent :=
  omap (fun m => match parse_message m with
                 | Return ev => Some ev
                 | Raise _ => None
                 end) messages.

(** The invocations that dispatching [events] to the registry of [c]
    makes: for each event, every listener of its type, in order. *)
Definition expected_calls (c : VoteClient) (events : list WebSocketEvent)
  : list (handler * WebSocketEvent) :=
  flat_map (fun ev => map (fun h => (h, ev)) (handlers_for c (type ev))) events.


(** The channel holds no connection and no listening task. *)
Definition Disconnected (c : VoteClient) : Prop :=
  websocket c = None /\ _websocket_task c = None.

End Vocabulary.

(* ===================================================================== *)
(** ** A small environment to run the definitions                         *)
(* ===================================================================== *)

Module Demo.

(** Listeners are numbered; the odd ones raise. The application counts
    the invocations. *)
Definition run_listener (h : nat) (ev : WebSocketEvent) (w : nat) : result unit * nat :=
  (if Nat.even h then Return tt
   else Raise (OtherException "RuntimeError" (pystr "listener failed")),
   S w).

(** A message is the event type in braces; anything else does not
    decode. *)
Definition decode (m : str) : result pyobj :=
  match m with
  | ch :: rest =>
      if ch =? 123 then Return (PDict [(pystr "type", PStr (removelast rest))])
      else Raise (OtherException "JSONDecodeError" (pystr "Expecting value"))
  | [] => Raise (OtherException "JSONDecodeError" (pystr "Expecting value"))
  end.

Definition event_of (kw : list (list Z * pyobj)) : result WebSocketEvent :=
  match dict_lookup kw (pystr "type") with
  | Some (PStr t) => Return {| type := t; data := PNone; timestamp := 0 |}
  | _ => Raise (OtherException "ValidationError" (pystr "type: field required"))
  end.

(** The service refuses every commit with a structured error, fails on
    the creation of a vote with a body that is a JSON object of another
    shape, and answers every other request with an empty object. *)
Definition vote_closed : Response :=
  {| status_code := 400;
     text := pystr "{message: vote closed, code: VOTE_CLOSED}";
     json := Return (PDict [(pystr "message", PStr (pystr "vote closed"));
                            (pystr "code", PStr (pystr "VOTE_CLOSED"))]) |}.

Definition internal_error : Response :=
  {| status_code := 500;
     text := pystr "{error: internal}";
     json := Return (PDict [(pystr "error", PStr (pystr "internal"))]) |}.

Definition service (cl : AsyncClient) (req : Request) : result Response :=
  if bool_decide (method req = pystr "POST") then
    if bool_decide (url req = pystr "/api/v1/votes") then Return internal_error
    else Return vote_closed
  else Return {| status_code := 200; text := pystr "{}"; json := Return (PDict []) |}.

(** No endpoint accepts a connection. *)
Definition refuse (u : str) : result WebSocket :=
  Raise (OtherException "OSError" (pystr "connection refused")).

Definition message_of (e : exn) : str :=
  match e with
  | OtherException _ m => m
  | _ => pystr (exn_class e)
  end.

#[export] Instance env : Collaborators := {|
  handler := nat;
  world := nat;
  call := run_listener;
  iscoroutinefunction := Nat.even;
  str_exn := message_of;
  json_loads := decode;
  construct := fun cls kw => Return (PModel cls kw);
  construct_WebSocketEvent := event_of;
  send := service;
  websockets_connect := refuse
|}.

Definition cfg (u : option (list Z)) : VoteSDKConfig :=
  {| base_url := pystr "https://api.example"; api_key := None; timeout := 30;
     retries := 3; websocket_url := u |}.

Definition start : machine := {| app := 0%nat; log := []; calls := [] |}.

Definition vote_config : VoteConfig :=
  {| vc_title := pystr "Budget"; vc_description := pystr "Budget 2025";
     vc_template_id := pystr "yes-no"; vc_template_params := [];
     commitment_duration_hours := 24; reveal_duration_hours := 24 |}.

Definition commit_request : CommitRequest :=
  {| cr_voter := pystr "alice";
     cr_commitment_hash :=
       pystr "287b98fd85970330510d7c0ae82359fa9a83a327df85b036a75f56b7b92e71c6";
     cr_salt := pystr "0000000000000000" |}.

(** A connection that delivers a [results] event, a message that is not
    JSON, and a second [results] event. *)
Definition connection : WebSocket :=
  {| frames := [pystr "{results}"; pystr "not json"; pystr "{results}"];
     ending := RaisesConnectionClosed |}.

Definition results_event : WebSocketEvent :=
  {| type := pystr "results"; data := PNone; timestamp := 0 |}.

End Demo.

(* ===================================================================== *)
(** ** Further functions of [client.py]                                   *)
(* ===================================================================== *)

(** The two classes of exception the package defines. *)
Definition sdk_error (e : exn) : Prop :=
  exn_class e = "VoteError"%string \/ exn_class e = "NetworkError"%string.

Section Lifecycle.
Context `{Collaborators}.

(** [create_vote_client] *)
Definition create_vote_client (cfg : VoteSDKConfig) : VoteClient := VoteClient_init cfg.

(** [disconnect_websocket]. The listening task, when there is one, is
    cancelled and awaited, and the [CancelledError] of the wait is
    handled; that changes no attribute of the client (the task stays in
    [_websocket_task]). Then the connection, when there is one, is
    closed and forgotten, and a record is logged. [close] is what
    [websocket.close()] does: it returns, or raises an exception, which
    propagates before the attribute is reset. *)
Definition disconnect_websocket (close : WebSocket -> result unit)
    (c : VoteClient) (st : machine) : result unit * VoteClient * machine :=
  let c1 :=
    match websocket c with
    | Some ws =>
        let! _ := close ws in
        Return {| config := config c; http_client := http_client c;
                  websocket := None; event_handlers := event_handlers c;
                  _websocket_task := _websocket_task c |}
    | None => Return c
    end in
  match c1 with
  | Return c' => (Return tt, c', logger INFO (pystr "WebSocket disconnected") st)
  | Raise e => (Raise e, c, st)
  end.

(** The messages of a connection that do not parse, each with its
    exception, in order of arrival. *)
Definition parse_failures (messages : list (list Z)) : list exn :=
  omap (fun m => match parse_message m with
                 | Return _ => None
                 | Raise e => Some e
                 end) messages.

(** The record the listener writes when the connection ends. *)
Definition ending_record (e : stream_end) : list (level * list Z) :=
  match e with
  | EndOfStream => []
  | RaisesConnectionClosed => [(INFO, pystr "WebSocket connection closed")]
  | RaisesException x => [(ERROR, pystr "WebSocket error: " ++ str_exn x)]
  end.

End Lifecycle.

(** A second environment: the service answers every request with
    status 200 and an object that holds a vote id; every endpoint accepts
    the connection and delivers the messages of [Demo.connection]; no
    listener raises. *)
Module Live.

Definition run_listener (h : nat) (ev : WebSocketEvent) (w : nat) : result unit * nat :=
  (Return tt, (w + h)%nat).

Definition created : Response :=
  {| status_code := 200;
     text := pystr "{vote_id: 7}";
     json := Return (PDict [(pystr "vote_id", PInt 7)]) |}.

Definition service (cl : AsyncClient) (req : Request) : result Response := Return created.

#[export] Instance env : Collaborators := {|
  handler := nat;
  world := nat;
  call := run_listener;
  iscoroutinefunction := Nat.even;
  str_exn := Demo.message_of;
  json_loads := Demo.decode;
  construct := fun cls kw => Return (PModel cls kw);
  construct_WebSocketEvent := Demo.event_of;
  send := service;
  websockets_connect := fun _ => Return Demo.connection
|}.

Definition start : machine := {| app := 0%nat; log := []; calls := [] |}.

End Live.

(* ===================================================================== *)
(** * Properties                                                          *)
(* ===================================================================== *)

(** ** Known answers of the SHA-256 model *)

Example sha256_constants :
  firstn 4 SHA256.K = [0x428a2f98; 0x71374491; 0xb5c0fbcf; 0xe9b5dba5] /\
  nth 63 SHA256.K 0 = 0xc67178f2 /\ length SHA256.K = 64%nat /\
  SHA256.a SHA256.H0 = 0x6a09e667 /\ SHA256.h SHA256.H0 = 0x5be0cd19.
Proof. vm_compute. repeat split. Qed.

Example sha256_empty :
  SHA256.hexdigest [] =
  pystr "e3b0c44298fc1c149afbf4c8996fb92427ae41e4649b934ca495991b7852b855".
Proof. vm_compute. reflexivity. Qed.

Example sha256_abc :
  SHA256.hexdigest [97; 98; 99] =
  pystr "ba7816bf8f01cfea414140de5dae2223b00361a396177a9cb410ff61f20015ad".
Proof. vm_compute. reflexivity. Qed.

(** A message of 56 bytes, which pads to two blocks. *)
Example sha256_two_blocks :
  SHA256.hexdigest (pystr "abcdbcdecdefdefgefghfghighijhijkijkljklmklmnlmnomnopnopq") =
  pystr "248d6a61d20638b8e5c026930c3e6039a33ce45964ff2167f6ecedd419db06c1".
Proof. vm_compute. reflexivity. Qed.

Example create_commitment_yes_salt :
  create_commitment (pystr "yes") (pystr "0000000000000000") =
  Return (pystr "287b98fd85970330510d7c0ae82359fa9a83a327df85b036a75f56b7b92e71c6").
Proof. vm_compute. reflexivity. Qed.

(** ** Encoding *)

Ltac zcases :=
  repeat match goal with
         | |- context [Z.ltb ?x ?y] => destruct (Z.ltb_spec x y); cbn
         | |- context [Z.leb ?x ?y] => destruct (Z.leb_spec x y); cbn
         | |- context [Z.eqb ?x ?y] => destruct (Z.eqb_spec x y); cbn
         end.

Lemma utf8_encode_char_defined (ch : Z) :
  ((0 <=? ch) && (ch <=? 0x10FFFF) && negb (is_surrogate ch)) = true ->
  exists bs, utf8_encode_char ch = Some bs.
Proof.
  unfold utf8_encode_char, is_surrogate. zcases; intros Hc;
    try discriminate; try lia; eauto.
Qed.

Lemma utf8_encode_char_undefined (ch : Z) :
  ((0 <=? ch) && (ch <=? 0x10FFFF) && negb (is_surrogate ch)) = false ->
  utf8_encode_char ch = None.
Proof.
  unfold utf8_encode_char, is_surrogate. zcases; intros Hc;
    try discriminate; try lia; reflexivity.
Qed.

Lemma encode_from_encodable (s : list Z) :
  utf8_encodable s = true -> forall i, encode_from i s = Return (utf8_bytes s).
Proof.
  induction s as [|ch s IH]; intros Hs i; [reflexivity|].
  cbn in Hs. apply andb_true_iff in Hs as [Hch Hs].
  destruct (utf8_encode_char_defined ch Hch) as [bs Hbs].
  cbn. rewrite Hbs, (IH Hs). reflexivity.
Qed.

Lemma encode_from_not_encodable (s : list Z) :
  utf8_encodable s = false ->
  forall i, exists j, encode_from i s = Raise (UnicodeEncodeError j).
Proof.
  induction s as [|ch s IH]; intros Hs i; [discriminate|].
  cbn in Hs. apply andb_false_iff in Hs as [Hch | Hs].
  - exists i. cbn. rewrite (utf8_encode_char_undefined ch Hch). reflexivity.
  - cbn. destruct (utf8_encode_char ch) as [bs|]; [|eauto].
    destruct (IH Hs (S i)) as [j Hj]. exists j. rewrite Hj. reflexivity.
Qed.

Lemma utf8_encodable_app (s1 s2 : list Z) :
  utf8_encodable (s1 ++ s2) = utf8_encodable s1 && utf8_encodable s2.
Proof. apply forallb_app. Qed.

Lemma utf8_encodable_combined (value salt : list Z) :
  utf8_encodable (value ++ pystr ":" ++ salt) = utf8_encodable value && utf8_encodable salt.
Proof. rewrite !utf8_encodable_app. reflexivity. Qed.

Lemma utf8_bytes_combined (value salt : list Z) :
  utf8_bytes (value ++ pystr ":" ++ salt) = utf8_bytes value ++ [58] ++ utf8_bytes salt.
Proof. unfold utf8_bytes. rewrite !flat_map_app. reflexivity. Qed.

Lemma create_commitment_encodable (value salt : list Z) :
  utf8_encodable value = true -> utf8_encodable salt = true ->
  create_commitment value salt =
  Return (SHA256.hexdigest (utf8_bytes value ++ [58] ++ utf8_bytes salt)).
Proof.
  intros Hv Hs. unfold create_commitment, encode.
  rewrite encode_from_encodable by (rewrite utf8_encodable_combined, Hv, Hs; reflexivity).
  rewrite utf8_bytes_combined. reflexivity.
Qed.

Lemma create_commitment_not_encodable (value salt : list Z) :
  utf8_encodable (value ++ pystr ":" ++ salt) = false ->
  exists j, create_commitment value salt = Raise (UnicodeEncodeError j).
Proof.
  intros Hc. unfold create_commitment, encode.
  destruct (encode_from_not_encodable _ Hc 0%nat) as [j Hj].
  exists j. rewrite Hj. reflexivity.
Qed.

(** ** The form of a digest *)

Lemma be_bytes_range (n : nat) (x : Z) :
  Forall (fun y => 0 <= y < 256) (SHA256.be_bytes n x).
Proof.
  unfold SHA256.be_bytes. apply Forall_map, Forall_forall. intros i _.
  change 0xFF with (Z.ones 8). rewrite Z.land_ones by lia.
  apply Z.mod_pos_bound. lia.
Qed.

Lemma digest_length (msg : list Z) : length (SHA256.digest msg) = 32%nat.
Proof. unfold SHA256.digest, SHA256.state_words. reflexivity. Qed.

Lemma digest_range (msg : list Z) :
  Forall (fun y => 0 <= y < 256) (SHA256.digest msg).
Proof.
  unfold SHA256.digest. apply Forall_flat_map, Forall_forall.
  intros w _. apply be_bytes_range.
Qed.

Lemma hexdigit_lower_hex (n : Z) :
  0 <= n < 16 -> is_lower_hex (SHA256.hexdigit n) = true.
Proof.
  intros Hn. unfold SHA256.hexdigit, is_lower_hex. zcases; try reflexivity; lia.
Qed.

Lemma hexlify_length (bs : list Z) :
  length (SHA256.hexlify bs) = (2 * length bs)%nat.
Proof.
  unfold SHA256.hexlify.
  induction bs as [|x bs IH]; [reflexivity|].
  simpl. rewrite IH. lia.
Qed.

Lemma hexlify_lower_hex (bs : list Z) :
  Forall (fun y => 0 <= y < 256) bs ->
  Forall (fun ch => is_lower_hex ch = true) (SHA256.hexlify bs).
Proof.
  induction 1 as [|x bs Hx _ IH]; [constructor|].
  cbn [SHA256.hexlify flat_map app].
  constructor; [|constructor; [|exact IH]].
  - apply hexdigit_lower_hex. rewrite Z.shiftr_div_pow2 by lia.
    change (2 ^ 4) with 16. split.
    + apply Z.div_pos; lia.
    + apply Z.div_lt_upper_bound; lia.
  - apply hexdigit_lower_hex. change 0xF with (Z.ones 4).
    rewrite Z.land_ones by lia. apply Z.mod_pos_bound. lia.
Qed.

Lemma hexdigest_length (msg : list Z) : length (SHA256.hexdigest msg) = 64%nat.
Proof. unfold SHA256.hexdigest. rewrite hexlify_length, digest_length. reflexivity. Qed.

Lemma hexdigest_lower_hex (msg : list Z) :
  Forall (fun ch => is_lower_hex ch = true) (SHA256.hexdigest msg).
Proof. apply hexlify_lower_hex, digest_range. Qed.

(** ** [int(s, 16)] on strings of hexadecimal digits *)

Ltac hex_hyp H :=
  unfold is_hex_digit, is_lower_hex in H;
  rewrite ?orb_true_iff, ?andb_true_iff, ?Z.leb_le in H.

Lemma hex_digit_ascii (ch : Z) : is_hex_digit ch = true -> (ch <? 128) = true.
Proof. intros Hc. hex_hyp Hc. apply Z.ltb_lt. lia. Qed.

Lemma hex_digit_not_space (ch : Z) : is_hex_digit ch = true -> Py_ISSPACE ch = false.
Proof. intros Hc. hex_hyp Hc. unfold Py_ISSPACE. zcases; try reflexivity; lia. Qed.

Lemma hex_digit_neq (ch : Z) :
  is_hex_digit ch = true ->
  (ch =? 43) = false /\ (ch =? 45) = false /\ (ch =? 95) = false /\
  (ch =? 120) = false /\ (ch =? 88) = false.
Proof. intros Hc. hex_hyp Hc. repeat split; apply Z.eqb_neq; lia. Qed.

Lemma hex_digit_value (ch : Z) :
  is_hex_digit ch = true -> (PyLong_DigitValue ch <? 16) = true.
Proof.
  intros Hc. hex_hyp Hc. unfold PyLong_DigitValue.
  repeat match goal with
         | |- context [Z.leb ?x ?y] => destruct (Z.leb_spec x y); cbn [andb]
         end; apply Z.ltb_lt; lia.
Qed.

Lemma scan_digits_hex (s : list Z) :
  Forall (fun ch => is_hex_digit ch = true) s ->
  forall prev acc n, (prev =? 95) = false ->
  exists z, scan_digits prev acc n s = Some (z, (n + length s)%nat, []).
Proof.
  induction 1 as [|ch s Hch _ IH]; intros prev acc n Hprev; cbn [scan_digits length].
  - rewrite Hprev, Nat.add_0_r. eauto.
  - destruct (hex_digit_neq ch Hch) as (_ & _ & H95 & _).
    rewrite H95, (hex_digit_value ch Hch).
    destruct (IH ch (acc * 16 + PyLong_DigitValue ch) (S n) H95) as [z Hz].
    exists z. rewrite Hz, Nat.add_succ_r. reflexivity.
Qed.

Lemma PyLong_FromString_hex (ch : Z) (s : list Z) :
  Forall (fun x => is_hex_digit x = true) (ch :: s) ->
  exists z, PyLong_FromString (ch :: s) = Some (z, []).
Proof.
  intros Hs. pose proof Hs as Hs'. apply Forall_cons in Hs' as [Hch Hrest].
  destruct (hex_digit_neq ch Hch) as (H43 & H45 & H95 & _).
  destruct (scan_digits_hex (ch :: s) Hs 0 0 0%nat eq_refl) as [z Hz].
  exists (1 * z). unfold PyLong_FromString.
  cbn [skip_spaces]. rewrite (hex_digit_not_space ch Hch), H43, H45.
  assert (Hprefix :
    match ch :: s with
    | c0 :: c1 :: rest =>
        if (c0 =? 48) && ((c1 =? 120) || (c1 =? 88)) then
          match rest with
          | c2 :: rest' => if c2 =? 95 then rest' else rest
          | [] => rest
          end
        else ch :: s
    | _ => ch :: s
    end = ch :: s).
  { destruct s as [|c1 rest]; [reflexivity|].
    apply Forall_cons in Hrest as [Hc1 _].
    destruct (hex_digit_neq c1 Hc1) as (_ & _ & _ & H120 & H88).
    rewrite H120, H88, andb_false_r. reflexivity. }
  rewrite Hprefix, H95, Hz. reflexivity.
Qed.

Lemma int16_hex (s : list Z) :
  s <> [] -> Forall (fun ch => is_hex_digit ch = true) s ->
  exists z, int16 s = Return z.
Proof.
  intros Hne Hs. destruct s as [|ch s]; [congruence|].
  unfold int16, PyUnicode_TransformDecimalAndSpaceToASCII.
  assert (Hascii : forallb (fun x => x <? 128) (ch :: s) = true).
  { apply forallb_forall. intros x Hx. apply hex_digit_ascii.
    rewrite Forall_forall in Hs. apply Hs, list_elem_of_In, Hx. }
  rewrite Hascii. destruct (PyLong_FromString_hex ch s Hs) as [z Hz].
  rewrite Hz. eauto.
Qed.

Lemma is_valid_hex_hex (s : list Z) :
  s <> [] -> Forall (fun ch => is_hex_digit ch = true) s ->
  is_valid_hex s = Return true.
Proof.
  intros Hne Hs. unfold is_valid_hex.
  destruct (int16_hex s Hne Hs) as [z Hz]. rewrite Hz. reflexivity.
Qed.

Lemma is_valid_hex_returns (s : list Z) : exists v, is_valid_hex s = Return v.
Proof.
  unfold is_valid_hex, int16.
  destruct (PyLong_FromString _) as [[z [|x rest]]|]; cbn; eauto.
Qed.

Lemma is_valid_commitment_hash_returns (s : list Z) :
  exists v, is_valid_commitment_hash s = Return v.
Proof.
  unfold is_valid_commitment_hash.
  destruct (is_valid_hex_returns s) as [v Hv]. rewrite Hv. cbn. eauto.
Qed.

Lemma is_valid_commitment_hash_hex (s : list Z) :
  length s = 64%nat -> Forall (fun ch => is_hex_digit ch = true) s ->
  is_valid_commitment_hash s = Return true.
Proof.
  intros Hlen Hs. unfold is_valid_commitment_hash.
  rewrite is_valid_hex_hex; [|intros ->; discriminate|exact Hs].
  cbn. rewrite bool_decide_eq_true_2 by exact Hlen. reflexivity.
Qed.

Lemma lower_hex_is_hex_digit (s : list Z) :
  Forall (fun ch => is_lower_hex ch = true) s ->
  Forall (fun ch => is_hex_digit ch = true) s.
Proof.
  intros Hs. eapply Forall_impl; [exact Hs|].
  intros ch Hch. unfold is_hex_digit. rewrite Hch. reflexivity.
Qed.

Lemma hexdigest_is_valid_commitment_hash (msg : list Z) :
  is_valid_commitment_hash (SHA256.hexdigest msg) = Return true.
Proof.
  apply is_valid_commitment_hash_hex.
  - apply hexdigest_length.
  - apply lower_hex_is_hex_digit, hexdigest_lower_hex.
Qed.

(** ** Upper case of a digest *)

Lemma upper_length (s : list Z) : length (upper s) = length s.
Proof. apply length_map. Qed.

Lemma upper_lower_hex (s : list Z) :
  Forall (fun ch => is_lower_hex ch = true) s ->
  Forall (fun ch => is_hex_digit ch = true) (upper s).
Proof.
  intros Hs. unfold upper. apply Forall_map. eapply Forall_impl; [exact Hs|].
  intros ch Hch. unfold is_lower_hex in Hch.
  rewrite ?orb_true_iff, ?andb_true_iff, ?Z.leb_le in Hch.
  cbn beta. destruct (Z.leb_spec 97 ch); destruct (Z.leb_spec ch 122); cbn [andb];
    unfold is_hex_digit, is_lower_hex; zcases; try reflexivity; lia.
Qed.

Lemma upper_fixed (s : list Z) :
  Forall (fun ch => is_lower_hex ch = true) s ->
  upper s = s <-> Forall (fun ch => 48 <= ch <= 57) s.
Proof.
  induction 1 as [|ch s Hch _ IH]; [split; [constructor|reflexivity]|].
  unfold is_lower_hex in Hch.
  rewrite ?orb_true_iff, ?andb_true_iff, ?Z.leb_le in Hch.
  cbn [upper map]. fold (upper s). rewrite Forall_cons. split.
  - intros Heq. injection Heq as Hhead Htail. split; [|apply IH, Htail].
    revert Hhead. zcases; lia.
  - intros [Hd Hrest]. f_equal; [|apply IH, Hrest]. zcases; lia.
Qed.

(** A digest in upper case passes the validator, and verifies exactly
    when it has no letter, that is, when it is the digest itself. *)
Lemma verify_commitment_upper (value salt : list Z) :
  utf8_encodable value = true -> utf8_encodable salt = true ->
  exists h,
    create_commitment value salt = Return h /\
    is_valid_commitment_hash (upper h) = Return true /\
    verify_commitment value salt (upper h) =
      Return (bool_decide (Forall (fun ch => 48 <= ch <= 57) h)).
Proof.
  intros Hv Hs.
  pose proof (create_commitment_encodable value salt Hv Hs) as Hc.
  remember (SHA256.hexdigest (utf8_bytes value ++ [58] ++ utf8_bytes salt)) as h eqn:Hh.
  assert (Hlow : Forall (fun ch => is_lower_hex ch = true) h)
    by (subst h; apply hexdigest_lower_hex).
  assert (Hlen : length h = 64%nat) by (subst h; apply hexdigest_length).
  exists h. split; [exact Hc|]. split.
  - apply is_valid_commitment_hash_hex.
    + rewrite upper_length. exact Hlen.
    + apply upper_lower_hex, Hlow.
  - unfold verify_commitment. rewrite Hc. cbn. f_equal. apply bool_decide_ext.
    rewrite <- (upper_fixed h Hlow). split; congruence.
Qed.

(* ===================================================================== *)
(** ** The commitment engine                                              *)
(* ===================================================================== *)

(** C1. For every pair of strings [v] and [s],
    [verify_commitment(v, s, create_commitment(v, s))] returns [True]:
    the two calls, evaluated one after the other, end with the value
    [True]. The strings are those [str.encode] accepts, the ones that
    have UTF-8 bytes; a string with a lone surrogate is input that
    [create_commitment] refuses with [UnicodeEncodeError]. *)
Theorem verify_commitment_of_create_commitment (v s : list Z) :
  utf8_encodable v = true -> utf8_encodable s = true ->
  (let! h := create_commitment v s in verify_commitment v s h) = Return true.
Proof.
  intros Hv Hs. unfold verify_commitment.
  rewrite (create_commitment_encodable v s Hv Hs). cbn.
  rewrite bool_decide_eq_true_2 by reflexivity. reflexivity.
Qed.

Lemma verify_commitment_of_create_commitment_witness :
  (let! h := create_commitment (pystr "yes") (pystr "0000000000000000") in
   verify_commitment (pystr "yes") (pystr "0000000000000000") h) = Return true.
Proof.
  apply (verify_commitment_of_create_commitment (pystr "yes") (pystr "0000000000000000"));
    reflexivity.
Defined.

(** C2. For every pair of strings [value] and [salt] (that have UTF-8
    bytes), [create_commitment(value, salt)] is the SHA-256 digest of the
    UTF-8 bytes of [value + ":" + salt], which are the bytes of [value],
    a colon and the bytes of [salt]; the digest has 32 bytes and is
    written as exactly 64 characters, each one of [0-9a-f]; equal
    arguments give equal results. The function takes and returns values
    only: it reads and writes no state. *)
Theorem create_commitment_sha256_hex (value salt : list Z) :
  utf8_encodable value = true -> utf8_encodable salt = true ->
  exists bs h,
    encode (value ++ pystr ":" ++ salt) = Return bs /\
    bs = utf8_bytes value ++ [58] ++ utf8_bytes salt /\
    create_commitment value salt = Return h /\
    h = SHA256.hexlify (SHA256.digest bs) /\
    length (SHA256.digest bs) = 32%nat /\
    length h = 64%nat /\
    Forall (fun ch => is_lower_hex ch = true) h /\
    (forall value' salt', value' = value -> salt' = salt ->
       create_commitment value' salt' = Return h).
Proof.
  intros Hv Hs.
  exists (utf8_bytes value ++ [58] ++ utf8_bytes salt).
  exists (SHA256.hexdigest (utf8_bytes value ++ [58] ++ utf8_bytes salt)).
  pose proof (create_commitment_encodable value salt Hv Hs) as Hc.
  split; [|split; [reflexivity|split; [exact Hc|split; [reflexivity|]]]].
  - unfold encode. rewrite encode_from_encodable
      by (rewrite utf8_encodable_combined, Hv, Hs; reflexivity).
    rewrite utf8_bytes_combined. reflexivity.
  - split; [apply digest_length|].
    split; [apply hexdigest_length|].
    split; [apply hexdigest_lower_hex|].
    intros value' salt' -> ->. exact Hc.
Qed.

Lemma create_commitment_sha256_hex_witness :
  exists bs h,
    encode (pystr "yes" ++ pystr ":" ++ pystr "0000000000000000") = Return bs /\
    bs = utf8_bytes (pystr "yes") ++ [58] ++ utf8_bytes (pystr "0000000000000000") /\
    create_commitment (pystr "yes") (pystr "0000000000000000") = Return h /\
    h = SHA256.hexlify (SHA256.digest bs) /\
    length (SHA256.digest bs) = 32%nat /\
    length h = 64%nat /\
    Forall (fun ch => is_lower_hex ch = true) h /\
    (forall value' salt', value' = pystr "yes" -> salt' = pystr "0000000000000000" ->
       create_commitment value' salt' = Return h).
Proof.
  apply (create_commitment_sha256_hex (pystr "yes") (pystr "0000000000000000"));
    reflexivity.
Defined.

(** C3. [is_valid_hex(s)] is to hold exactly of the non-empty strings of
    hexadecimal digits. The function is [int(s, 16)] guarded by a
    handler, and [int] reads more than digits: a prefix [0x], a sign,
    white space around the number, an underscore between digits, the
    decimal digits of other scripts. Each such string is accepted, and
    so is a commitment hash of 62 digits behind [0x]; the strings the
    specification lists as refused are refused. *)
Theorem is_valid_hex_accepts_more_than_digits :
  is_valid_hex (pystr "0x1f") = Return true /\
  is_valid_hex (pystr "-1") = Return true /\
  is_valid_hex (pystr " 1f ") = Return true /\
  is_valid_hex (pystr "1_f") = Return true /\
  is_valid_hex [0x663] = Return true /\
  is_valid_commitment_hash (pystr "0x" ++ repeat 97 62) = Return true /\
  is_valid_salt (pystr "0x" ++ repeat 97 62) = Return true /\
  is_valid_hex [] = Return false /\
  is_valid_commitment_hash (repeat 97 64) = Return true /\
  is_valid_commitment_hash (repeat 97 63) = Return false /\
  is_valid_commitment_hash (repeat 103 64) = Return false /\
  ~ (forall s, is_valid_hex s = Return true <->
               s <> [] /\ Forall (fun ch => is_hex_digit ch = true) s).
Proof.
  repeat (split; [vm_compute; reflexivity|]).
  intros Hall. destruct (Hall (pystr "0x1f")) as [Hacc _].
  destruct (Hacc eq_refl) as [_ Hdigits].
  apply Forall_cons in Hdigits as [_ Hdigits].
  apply Forall_cons in Hdigits as [Hx _]. discriminate Hx.
Qed.

(** C4, as the specification has it, at a hash that is not hexadecimal
    and too short: verification returns [False] and raises nothing. *)
Lemma malformed_hash_raises_nothing :
  verify_commitment (pystr "yes") (pystr "0000000000000000") (pystr "zz") = Return false /\
  ~ raises "InvalidInputError"
      (verify_commitment (pystr "yes") (pystr "0000000000000000") (pystr "zz")).
Proof. split; [vm_compute; reflexivity|]. vm_compute. intros []. Qed.

(** C4, amended. The engine has no [InvalidInputError]. A hash that the
    validator refuses (not hexadecimal, or not of 64 characters) makes
    [verify_commitment] return [False]; the validators return a Boolean
    for every string; a string that has no UTF-8 bytes makes
    [create_commitment] and [verify_commitment] raise
    [UnicodeEncodeError]; a negative length makes
    [generate_secure_random] raise [ValueError] when it fits a C
    [ssize_t] (from [-2^63] on) and [OverflowError] when it does not. *)
Theorem malformed_input_of_the_engine :
  (forall value salt h,
     utf8_encodable value = true -> utf8_encodable salt = true ->
     is_valid_commitment_hash h = Return false ->
     verify_commitment value salt h = Return false) /\
  (forall s, exists v, is_valid_hex s = Return v) /\
  (forall s, exists v, is_valid_commitment_hash s = Return v) /\
  (forall value salt h,
     utf8_encodable (value ++ pystr ":" ++ salt) = false ->
     raises "UnicodeEncodeError" (create_commitment value salt) /\
     raises "UnicodeEncodeError" (verify_commitment value salt h)) /\
  (forall n rng,
     - 2 ^ 63 <= n < 0 -> raises "ValueError" (fst (generate_secure_random n rng))) /\
  (forall n rng,
     n < - 2 ^ 63 -> raises "OverflowError" (fst (generate_secure_random n rng))).
Proof.
  split; [|split; [|split; [|split; [|split]]]].
  - intros value salt h Hv Hs Hbad. unfold verify_commitment.
    rewrite (create_commitment_encodable value salt Hv Hs). cbn [bind]. f_equal.
    apply bool_decide_eq_false_2. intros Heq. subst h.
    rewrite hexdigest_is_valid_commitment_hash in Hbad. discriminate.
  - apply is_valid_hex_returns.
  - apply is_valid_commitment_hash_returns.
  - intros value salt h Hbad.
    destruct (create_commitment_not_encodable value salt Hbad) as [j Hj].
    unfold verify_commitment. rewrite Hj. cbn. split; reflexivity.
  - intros n rng Hn. unfold generate_secure_random, token_hex, urandom.
    destruct (Z.ltb_spec n (- 2 ^ 63)); [lia|].
    destruct (Z.leb_spec (2 ^ 63) n); [lia|]. cbn [orb].
    destruct (Z.ltb_spec n 0); [reflexivity|lia].
  - intros n rng Hn. unfold generate_secure_random, token_hex, urandom.
    destruct (Z.ltb_spec n (- 2 ^ 63)); [reflexivity|lia].
Qed.

Lemma malformed_input_of_the_engine_witness :
  verify_commitment (pystr "yes") (pystr "0000000000000000") (pystr "zz") = Return false /\
  raises "UnicodeEncodeError" (create_commitment [0xD800] (pystr "0000000000000000")) /\
  raises "ValueError" (fst (generate_secure_random (-1) (fun _ => 0))) /\
  raises "OverflowError" (fst (generate_secure_random (- 2 ^ 63 - 1) (fun _ => 0))).
Proof.
  destruct malformed_input_of_the_engine as (Hhash & _ & _ & Hutf8 & Hneg & Hover).
  split; [|split; [|split]].
  - apply Hhash; reflexivity.
  - apply (Hutf8 [0xD800] (pystr "0000000000000000") []). reflexivity.
  - apply Hneg. lia.
  - apply Hover. lia.
Defined.

(* ===================================================================== *)
(** ** The listener registry and the dispatch                             *)
(* ===================================================================== *)

Section Registry.
Context `{Collaborators}.

Lemma handlers_for_on (c : VoteClient) (t t' : list Z) (h : handler) :
  handlers_for (on c t h) t' =
  if decide (t = t') then handlers_for c t ++ [h] else handlers_for c t'.
Proof.
  unfold handlers_for, on. cbn [event_handlers set_event_handlers].
  rewrite lookup_alter. destruct (decide (t = t')) as [->|Hne].
  - destruct (event_handlers c !! t') as [l|] eqn:Hl; cbn.
    + rewrite Hl. reflexivity.
    + rewrite lookup_insert_eq. reflexivity.
  - destruct (event_handlers c !! t) as [l|]; [reflexivity|].
    rewrite lookup_insert_ne by exact Hne. reflexivity.
Qed.



Lemma run_handlers_calls (l : list handler) (ev : WebSocketEvent) :
  forall st, calls (run_handlers l ev st) = calls st ++ map (fun h => (h, ev)) l.
Proof.
  induction l as [|h l IH]; intros st.
  - cbn. rewrite app_nil_r. reflexivity.
  - cbn [run_handlers map].
    destruct (iscoroutinefunction h); destruct (call h ev (app st)) as [[u|e] w];
      rewrite IH; cbn [calls logger]; rewrite <- app_assoc; reflexivity.
Qed.


Lemma handle_websocket_event_calls (c : VoteClient) (ev : WebSocketEvent) (st : machine) :
  calls (_handle_websocket_event c ev st) =
  calls st ++ map (fun h => (h, ev)) (handlers_for c (type ev)).
Proof. unfold _handle_websocket_event. apply run_handlers_calls. Qed.

Lemma process_message_calls (c : VoteClient) (m : list Z) (st : machine) :
  calls (process_message c m st) = calls st ++ expected_calls c (parsed_events [m]).
Proof.
  unfold process_message, parsed_events, expected_calls.
  destruct (parse_message m) as [ev|e] eqn:Hm; cbn; rewrite Hm; cbn.
  - rewrite handle_websocket_event_calls, app_nil_r. reflexivity.
  - rewrite app_nil_r. reflexivity.
Qed.

Lemma parsed_events_cons (m : list Z) (ms : list (list Z)) :
  parsed_events (m :: ms) = parsed_events [m] ++ parsed_events ms.
Proof. unfold parsed_events. cbn. destruct (parse_message m); reflexivity. Qed.

Lemma listen_loop_calls (c : VoteClient) (ms : list (list Z)) :
  forall st,
  calls (fold_left (fun s m => process_message c m s) ms st) =
  calls st ++ expected_calls c (parsed_events ms).
Proof.
  induction ms as [|m ms IH]; intros st.
  - cbn. rewrite app_nil_r. reflexivity.
  - cbn [fold_left]. rewrite IH, process_message_calls, (parsed_events_cons m ms).
    unfold expected_calls. rewrite flat_map_app, app_assoc. reflexivity.
Qed.

Lemma list_remove_first_found (h : handler) (before after : list handler) :
  h ∉ before ->
  list_remove_first h (before ++ h :: after) = Return (before ++ after).
Proof.
  induction before as [|x before IH]; intros Hnot; cbn.
  - rewrite bool_decide_eq_true_2 by reflexivity. reflexivity.
  - rewrite not_elem_of_cons in Hnot. destruct Hnot as [Hne Hnot].
    rewrite bool_decide_eq_false_2 by congruence.
    rewrite (IH Hnot). reflexivity.
Qed.

Lemma list_remove_first_absent (h : handler) (l : list handler) :
  h ∉ l -> exists e, list_remove_first h l = Raise e.
Proof.
  induction l as [|x l IH]; intros Hnot; cbn; [eauto|].
  rewrite not_elem_of_cons in Hnot. destruct Hnot as [Hne Hnot].
  rewrite bool_decide_eq_false_2 by congruence.
  destruct (IH Hnot) as [e He]. rewrite He. cbn. eauto.
Qed.


End Registry.

(* ===================================================================== *)
(** ** Connecting the event channel                                       *)
(* ===================================================================== *)

(** C5, as the specification has it, in the demonstration environment:
    without an endpoint the exception raised is no [ConfigurationError],
    and with an endpoint that refuses the connection it is no
    [ConnectionError]. *)
Lemma connect_websocket_raises_neither :
  ~ raises "ConfigurationError"
      (fst (fst (connect_websocket (H := Demo.env)
                   (VoteClient_init (Demo.cfg None)) Demo.start))) /\
  ~ raises "ConnectionError"
      (fst (fst (connect_websocket (H := Demo.env)
                   (VoteClient_init (Demo.cfg (Some (pystr "ws://node")))) Demo.start))).
Proof. split; vm_compute; discriminate. Qed.

(** C5, amended. When the real-time endpoint is not configured (absent
    or empty), [connect_websocket] raises
    [VoteError("WebSocket URL not configured")]; when it is configured
    and [websockets.connect] raises [e], it raises
    [VoteError("Failed to connect WebSocket: " + str(e))]. In both cases
    the client and the log are as they were before the call, so a
    channel that was disconnected still is. *)
Theorem connect_websocket_failure `{Collaborators} (c : VoteClient) (st : machine) :
  ((websocket_url (config c) = None \/ websocket_url (config c) = Some []) ->
   connect_websocket c st =
   (Raise (VoteError (PStr (pystr "WebSocket URL not configured")) PNone (PDict [])), c, st)) /\
  (forall u e,
     websocket_url (config c) = Some u -> u <> [] ->
     websockets_connect u = Raise e ->
     connect_websocket c st =
     (Raise (VoteError (PStr (pystr "Failed to connect WebSocket: " ++ str_exn e))
                       PNone (PDict [])), c, st)) /\
  (forall r c' st',
     connect_websocket c st = (Raise r, c', st') ->
     raises "VoteError" (Raise r : result unit) /\ c' = c /\ st' = st /\
     (Disconnected c -> Disconnected c')).
Proof.
  split; [|split].
  - intros [Hu | Hu]; unfold connect_websocket; rewrite Hu; reflexivity.
  - intros u e Hu Hne He. unfold connect_websocket. rewrite Hu.
    rewrite bool_decide_eq_false_2 by exact Hne.
    change (default [] (Some u)) with u. rewrite He. reflexivity.
  - intros r c' st'. unfold connect_websocket.
    destruct (match websocket_url (config c) with
              | Some u => bool_decide (u = [])
              | None => true
              end).
    + intros Heq. injection Heq as <- <- <-.
      split; [reflexivity|]. split; [reflexivity|]. split; [reflexivity|]. tauto.
    + destruct (websockets_connect _) as [ws|e]; [discriminate|].
      intros Heq. injection Heq as <- <- <-.
      split; [reflexivity|]. split; [reflexivity|]. split; [reflexivity|]. tauto.
Qed.

Lemma connect_websocket_failure_witness :
  connect_websocket (H := Demo.env) (VoteClient_init (Demo.cfg None)) Demo.start =
  (Raise (VoteError (PStr (pystr "WebSocket URL not configured")) PNone (PDict [])),
   VoteClient_init (Demo.cfg None), Demo.start) /\
  connect_websocket (H := Demo.env)
    (VoteClient_init (Demo.cfg (Some (pystr "ws://node")))) Demo.start =
  (Raise (VoteError (PStr (pystr "Failed to connect WebSocket: connection refused"))
                    PNone (PDict [])),
   VoteClient_init (Demo.cfg (Some (pystr "ws://node"))), Demo.start).
Proof.
  split.
  - apply (proj1 (connect_websocket_failure (H := Demo.env)
                    (VoteClient_init (Demo.cfg None)) Demo.start)).
    left. reflexivity.
  - apply (proj1 (proj2 (connect_websocket_failure (H := Demo.env)
                           (VoteClient_init (Demo.cfg (Some (pystr "ws://node"))))
                           Demo.start))
             (pystr "ws://node")
             (OtherException "OSError" (pystr "connection refused"))).
    + reflexivity.
    + discriminate.
    + reflexivity.
Defined.

(* ===================================================================== *)
(** ** Errors of the request methods                                      *)
(* ===================================================================== *)

Section Requests.
Context `{Collaborators}.

Lemma request_method_status_error {A : Type} (failure : list Z) (req : Request)
    (c : VoteClient) (body : Response -> result A) (response : Response) :
  send (http_client c) req = Return response ->
  raise_for_status response = true ->
  request_method failure req c body = Raise (_handle_http_error response).
Proof. intros Hsend Hstatus. unfold request_method. rewrite Hsend, Hstatus. reflexivity. Qed.

Lemma handle_http_error_object (response : Response) (items : list (list Z * pyobj)) :
  json response = Return (PDict items) ->
  _handle_http_error response =
  VoteError_init
    (default (PStr (pystr "HTTP request failed")) (dict_lookup items (pystr "message")))
    (default PNone (dict_lookup items (pystr "code")))
    (default (PDict []) (dict_lookup items (pystr "details"))).
Proof.
  intros Hjson. unfold _handle_http_error. rewrite Hjson. cbn [bind py_get].
  destruct (dict_lookup items (pystr "message"));
    destruct (dict_lookup items (pystr "code"));
    destruct (dict_lookup items (pystr "details")); reflexivity.
Qed.

Lemma handle_http_error_other (response : Response) :
  (forall items, json response <> Return (PDict items)) ->
  _handle_http_error response =
  NetworkError
    (PStr (pystr "HTTP " ++ str_of_int (status_code response) ++ pystr ": " ++ text response))
    (PInt (status_code response))
    (PDict [(pystr "response", PStr (text response))]).
Proof.
  intros Hjson. unfold _handle_http_error.
  destruct (json response) as [[]|e]; try reflexivity.
  exfalso. eapply Hjson. reflexivity.
Qed.

End Requests.

(** C6, as the specification has it, in the demonstration environment:
    the service answers the creation of a vote with status 500 and the
    JSON object [{"error": "internal"}], which has no [message]; the
    method raises a [VoteError], not a [NetworkError], and neither the
    status nor the body is in it. *)
Lemma unrecognized_object_raises_VoteError :
  create_vote (H := Demo.env) (VoteClient_init (Demo.cfg None)) Demo.vote_config =
  Raise (VoteError (PStr (pystr "HTTP request failed")) PNone (PDict [])) /\
  ~ raises "NetworkError"
      (create_vote (H := Demo.env) (VoteClient_init (Demo.cfg None)) Demo.vote_config).
Proof. split; [vm_compute; reflexivity|]. vm_compute. discriminate. Qed.

(** C6, amended. Every request method other than [health_check] whose
    request is answered with a status that is not 2xx raises
    [_handle_http_error] of the response. That is a [VoteError] whenever
    the body is a JSON object: its message is the entry [message], or
    ["HTTP request failed"] when there is none; its code the entry
    [code], or [None]; its details the entry [details], or an empty dict
    when that is absent or false. It is a [NetworkError] with the message
    ["HTTP <status>: <body>"], the status and the body text when the
    body is not JSON or is JSON but not an object. [health_check] returns
    [False]. *)
Theorem non_2xx_response_error `{Collaborators} (c : VoteClient) (response : Response) :
  raise_for_status response = true ->
  let answered (req : Request) := send (http_client c) req = Return response in
  let error := _handle_http_error response in
  (forall cfg, answered (post (pystr "/api/v1/votes") (VoteConfig_dict cfg)) ->
     create_vote c cfg = Raise error) /\
  (forall vote_id, answered (get (pystr "/api/v1/votes/" ++ vote_id) None) ->
     get_vote c vote_id = Raise error) /\
  (forall query,
     answered (get (pystr "/api/v1/votes")
                 (Some (List.filter (fun kv => match snd kv with PNone => false | _ => true end)
                                    (ListQuery_dict query)))) ->
     list_votes c query = Raise error) /\
  (forall vote_id, answered (get (pystr "/api/v1/votes/" ++ vote_id ++ pystr "/stats") None) ->
     get_vote_stats c vote_id = Raise error) /\
  (forall vote_id, answered (get (pystr "/api/v1/votes/" ++ vote_id ++ pystr "/phase") None) ->
     get_vote_phase c vote_id = Raise error) /\
  (forall vote_id request,
     answered (post (pystr "/api/v1/votes/" ++ vote_id ++ pystr "/commit")
                 (CommitRequest_dict request)) ->
     commit_vote c vote_id request = Raise error) /\
  (forall vote_id request,
     answered (post (pystr "/api/v1/votes/" ++ vote_id ++ pystr "/reveal")
                 (RevealRequest_dict request)) ->
     reveal_vote c vote_id request = Raise error) /\
  (forall vote_id, answered (get (pystr "/api/v1/votes/" ++ vote_id ++ pystr "/results") None) ->
     get_results c vote_id = Raise error) /\
  (answered (get (pystr "/health") None) -> health_check c = false) /\
  (forall items, json response = Return (PDict items) ->
     error =
     VoteError
       (default (PStr (pystr "HTTP request failed")) (dict_lookup items (pystr "message")))
       (default PNone (dict_lookup items (pystr "code")))
       (let details := default (PDict []) (dict_lookup items (pystr "details")) in
        if truthy details then details else PDict [])) /\
  ((forall items, json response <> Return (PDict items)) ->
     error =
     NetworkError
       (PStr (pystr "HTTP " ++ str_of_int (status_code response) ++ pystr ": " ++ text response))
       (PInt (status_code response))
       (PDict [(pystr "response", PStr (text response))])).
Proof.
  intros Hstatus answered error.
  repeat match goal with
         | |- (forall _, _) /\ _ => split; [intros; apply request_method_status_error; assumption|]
         end.
  split; [|split].
  - unfold answered, health_check. intros ->.
    unfold raise_for_status in Hstatus. apply negb_true_iff in Hstatus.
    destruct (Z.eqb_spec (status_code response) 200) as [Heq|]; [|reflexivity].
    rewrite Heq in Hstatus. discriminate.
  - intros items Hjson. unfold error.
    rewrite (handle_http_error_object response items Hjson). reflexivity.
  - apply handle_http_error_other.
Qed.

Lemma non_2xx_response_error_witness :
  commit_vote (H := Demo.env) (VoteClient_init (Demo.cfg None)) (pystr "v1")
    Demo.commit_request =
  Raise (VoteError (PStr (pystr "vote closed")) (PStr (pystr "VOTE_CLOSED")) (PDict [])).
Proof.
  pose proof (non_2xx_response_error (H := Demo.env)
                (VoteClient_init (Demo.cfg None)) Demo.vote_closed eq_refl) as Hall.
  cbv zeta in Hall.
  destruct Hall as (_ & _ & _ & _ & _ & Hcommit & _ & _ & _ & Hobject & _).
  rewrite (Hcommit (pystr "v1") Demo.commit_request eq_refl).
  rewrite (Hobject _ eq_refl). reflexivity.
Defined.

(* ===================================================================== *)
(** ** The message loop                                                   *)
(* ===================================================================== *)



(* ===================================================================== *)
(** ** Registering and removing listeners                                 *)
(* ===================================================================== *)



(** C9. [off(t, L)] removes the first registration of [L] for [t] and
    nothing else: the registrations before it and after it stay, in
    order, and the lists of all other types are untouched. When [L] is
    not registered for [t], or [t] has no list at all, the client is
    left as it is. [off] returns in every case: the [ValueError] of
    [list.remove] is handled inside. The other attributes of the client
    are never changed. *)
Theorem off_removes_first_registration `{Collaborators}
    (c : VoteClient) (t : list Z) (L : handler) :
  (forall before after,
     event_handlers c !! t = Some (before ++ L :: after) -> L ∉ before ->
     event_handlers (off c t L) !! t = Some (before ++ after)) /\
  (forall t', t' <> t -> event_handlers (off c t L) !! t' = event_handlers c !! t') /\
  (event_handlers c !! t = None -> off c t L = c) /\
  (forall l, event_handlers c !! t = Some l -> L ∉ l -> off c t L = c) /\
  config (off c t L) = config c /\
  http_client (off c t L) = http_client c /\
  websocket (off c t L) = websocket c /\
  _websocket_task (off c t L) = _websocket_task c.
Proof.
  split; [|split; [|split; [|split]]].
  - intros before after Hl Hnot. unfold off.
    rewrite Hl, (list_remove_first_found L before after Hnot).
    cbn [event_handlers set_event_handlers]. apply lookup_insert_eq.
  - intros t' Hne. unfold off.
    destruct (event_handlers c !! t) as [l|]; [|reflexivity].
    destruct (list_remove_first L l) as [l'|e]; [|reflexivity].
    cbn [event_handlers set_event_handlers]. apply lookup_insert_ne. congruence.
  - intros Hnone. unfold off. rewrite Hnone. reflexivity.
  - intros l Hl Hnot. unfold off. rewrite Hl.
    destruct (list_remove_first_absent L l Hnot) as [e He]. rewrite He. reflexivity.
  - unfold off. destruct (event_handlers c !! t) as [l|]; [|tauto].
    destruct (list_remove_first L l) as [l'|e]; cbn; tauto.
Qed.

Lemma off_removes_first_registration_witness :
  let c := register_all (H := Demo.env) (VoteClient_init (Demo.cfg None))
             [(pystr "results", 2%nat); (pystr "reveal", 5%nat);
              (pystr "results", 3%nat); (pystr "results", 2%nat)] in
  event_handlers (off c (pystr "results") 3%nat) !! pystr "results" = Some [2%nat; 2%nat] /\
  event_handlers (off c (pystr "results") 3%nat) !! pystr "reveal" = Some [5%nat] /\
  off c (pystr "results") 7%nat = c /\
  off c (pystr "commitment") 2%nat = c.
Proof.
  intros c.
  destruct (off_removes_first_registration (H := Demo.env) c (pystr "results") 3%nat)
    as (Hfirst & Hother & _).
  destruct (off_removes_first_registration (H := Demo.env) c (pystr "results") 7%nat)
    as (_ & _ & _ & Habsent & _).
  destruct (off_removes_first_registration (H := Demo.env) c (pystr "commitment") 2%nat)
    as (_ & _ & Hnone & _).
  split; [|split; [|split]].
  - apply (Hfirst [2%nat] [2%nat]); [vm_compute; reflexivity|].
    intros Hin. apply list_elem_of_In in Hin. destruct Hin as [Heq|[]]. discriminate.
  - rewrite Hother by discriminate. vm_compute. reflexivity.
  - apply (Habsent [2%nat; 3%nat; 2%nat]); [vm_compute; reflexivity|].
    intros Hin. apply list_elem_of_In in Hin.
    destruct Hin as [Heq|[Heq|[Heq|[]]]]; discriminate.
  - apply Hnone. vm_compute. reflexivity.
Defined.

(* ===================================================================== *)
(** * Further properties of the code                                      *)
(* ===================================================================== *)

(** ** Random tokens *)

Lemma urandom_bytes_range (n : nat) (rng : entropy) :
  Forall (fun y => 0 <= y < 256) (map (fun i => rng i mod 256) (seq 0 n)).
Proof.
  apply Forall_map, Forall_forall. intros i _. apply Z.mod_pos_bound. lia.
Qed.

Lemma token_hex_nonneg (n : Z) (rng : entropy) :
  0 <= n < 2 ^ 62 ->
  token_hex n rng =
  (Return (SHA256.hexlify (map (fun i => rng i mod 256) (seq 0 (Z.to_nat n)))),
   fun i => rng (i + Z.to_nat n)%nat).
Proof.
  intros Hn. unfold token_hex, urandom.
  destruct (Z.ltb_spec n (- 2 ^ 63)); [lia|].
  destruct (Z.leb_spec (2 ^ 63) n); [lia|]. cbn [orb].
  destruct (Z.ltb_spec n 0); [lia|].
  destruct (Z.leb_spec (2 ^ 63 - 33) n); [lia|]. cbn [bind].
  rewrite length_map, length_seq, Z2Nat.id by lia.
  change ((2 ^ 63 - 1) / 2) with (2 ^ 62 - 1).
  destruct (Z.ltb_spec (2 ^ 62 - 1) n); [lia|]. reflexivity.
Qed.

(** What a call of [token_hex] that returns has done. *)
Lemma token_hex_returns (n : Z) (rng : entropy) (s : list Z) :
  fst (token_hex n rng) = Return s ->
  0 <= n < 2 ^ 62 /\
  s = SHA256.hexlify (map (fun i => rng i mod 256) (seq 0 (Z.to_nat n))) /\
  (forall i, snd (token_hex n rng) i = rng (i + Z.to_nat n)%nat).
Proof.
  intros Hs.
  assert (Hn : 0 <= n < 2 ^ 62).
  { revert Hs. unfold token_hex, urandom.
    destruct (Z.ltb_spec n (- 2 ^ 63)); [discriminate|].
    destruct (Z.leb_spec (2 ^ 63) n); [discriminate|]. cbn [orb].
    destruct (Z.ltb_spec n 0); [discriminate|].
    destruct (Z.leb_spec (2 ^ 63 - 33) n); [discriminate|]. cbn [bind fst].
    rewrite length_map, length_seq, Z2Nat.id by lia.
    change ((2 ^ 63 - 1) / 2) with (2 ^ 62 - 1).
    destruct (Z.ltb_spec (2 ^ 62 - 1) n); [discriminate|]. lia. }
  rewrite (token_hex_nonneg n rng Hn) in Hs |- *. cbn [fst snd] in *.
  injection Hs as <-. repeat split; lia || reflexivity.
Qed.

Lemma map_seq_offset {A : Type} (f : nat -> A) (k n : nat) :
  forall start, map f (seq (start + k) n) = map (fun i => f (i + k)%nat) (seq start n).
Proof.
  induction n as [|n IH]; intros start; [reflexivity|].
  cbn [seq map]. f_equal. apply (IH (S start)).
Qed.

Lemma lower_hex_encodable (s : list Z) :
  Forall (fun ch => is_lower_hex ch = true) s -> utf8_encodable s = true.
Proof.
  intros Hs. apply forallb_forall. intros ch Hin.
  rewrite Forall_forall in Hs. specialize (Hs ch (proj2 (list_elem_of_In _ _) Hin)).
  unfold is_lower_hex in Hs.
  rewrite ?orb_true_iff, ?andb_true_iff, ?Z.leb_le in Hs.
  unfold is_surrogate. zcases; try reflexivity; lia.
Qed.

Lemma is_valid_salt_hex (s : list Z) :
  length s = 64%nat -> Forall (fun ch => is_hex_digit ch = true) s ->
  is_valid_salt s = Return true.
Proof. intros Hlen Hs. exact (is_valid_commitment_hash_hex s Hlen Hs). Qed.

(** X1. [generate_salt()] returns, whatever the randomness, a string of
    64 characters of [0-9a-f], which [is_valid_salt] accepts and which
    has UTF-8 bytes; it consumes exactly 32 bytes of randomness, so a
    second call is made of the next 32. *)
Theorem generate_salt_is_valid_salt (rng : entropy) :
  exists salt,
    fst (generate_salt rng) = Return salt /\
    length salt = 64%nat /\
    Forall (fun ch => is_lower_hex ch = true) salt /\
    is_valid_salt salt = Return true /\
    utf8_encodable salt = true /\
    (forall i, snd (generate_salt rng) i = rng (i + 32)%nat) /\
    fst (generate_salt (snd (generate_salt rng))) =
      Return (SHA256.hexlify (map (fun i => rng (i + 32)%nat mod 256) (seq 0 32))).
Proof.
  unfold generate_salt. rewrite (token_hex_nonneg 32 rng) by lia.
  set (bs := map (fun i => rng i mod 256) (seq 0 (Z.to_nat 32))).
  assert (Hlen : length (SHA256.hexlify bs) = 64%nat).
  { rewrite hexlify_length. unfold bs. rewrite length_map, length_seq. reflexivity. }
  assert (Hlow : Forall (fun ch => is_lower_hex ch = true) (SHA256.hexlify bs))
    by apply hexlify_lower_hex, urandom_bytes_range.
  exists (SHA256.hexlify bs). cbn [fst snd].
  split; [reflexivity|]. split; [exact Hlen|]. split; [exact Hlow|].
  split; [apply is_valid_salt_hex; [exact Hlen|apply lower_hex_is_hex_digit, Hlow]|].
  split; [apply lower_hex_encodable, Hlow|]. split; [reflexivity|].
  rewrite token_hex_nonneg by lia. reflexivity.
Qed.

(** X2. A call of [generate_secure_random(n)] that returns was given a
    length from 0 to below [2^62], has consumed exactly [n] bytes of
    randomness, and returns exactly [2 n] characters of [0-9a-f]: the
    hexadecimal form of those bytes, nothing cut off. *)
Theorem generate_secure_random_length (n : Z) (rng : entropy) (s : list Z) :
  fst (generate_secure_random n rng) = Return s ->
  0 <= n < 2 ^ 62 /\
  length s = (2 * Z.to_nat n)%nat /\
  Forall (fun ch => is_lower_hex ch = true) s /\
  (forall i, snd (generate_secure_random n rng) i = rng (i + Z.to_nat n)%nat).
Proof.
  unfold generate_secure_random. intros Hs.
  destruct (token_hex_returns n rng s Hs) as (Hn & -> & Hrng).
  split; [exact Hn|]. split; [|split].
  - rewrite hexlify_length, length_map, length_seq. reflexivity.
  - apply hexlify_lower_hex, urandom_bytes_range.
  - exact Hrng.
Qed.

Lemma generate_secure_random_length_witness :
  0 <= 4 < 2 ^ 62 /\
  length (pystr "00254a6f") = (2 * Z.to_nat 4)%nat /\
  Forall (fun ch => is_lower_hex ch = true) (pystr "00254a6f") /\
  (forall i, snd (generate_secure_random 4 (fun i => Z.of_nat i * 37)) i =
             (fun i => Z.of_nat i * 37) (i + Z.to_nat 4)%nat).
Proof.
  apply (generate_secure_random_length 4 (fun i => Z.of_nat i * 37) (pystr "00254a6f")).
  vm_compute. reflexivity.
Defined.

(** X3. When calls of [generate_secure_random] of lengths [m], [n] and
    [m + n] return, the first two made one after the other and the third
    from the same randomness as the first, the third result is the first
    followed by the second, and the randomness is left in the same
    place: a token is the concatenation of its parts. *)
Theorem generate_secure_random_concat (m n : Z) (rng : entropy) (s1 s2 s : list Z) :
  fst (generate_secure_random m rng) = Return s1 ->
  fst (generate_secure_random n (snd (generate_secure_random m rng))) = Return s2 ->
  fst (generate_secure_random (m + n) rng) = Return s ->
  s = s1 ++ s2 /\
  (forall i,
     snd (generate_secure_random n (snd (generate_secure_random m rng))) i =
     snd (generate_secure_random (m + n) rng) i).
Proof.
  unfold generate_secure_random. intros H1 H2 H3.
  destruct (token_hex_returns m rng s1 H1) as (Hm & -> & Hrng1).
  destruct (token_hex_returns (m + n) rng s H3) as (Hmn & -> & Hrng3).
  assert (Hn : 0 <= n < 2 ^ 62).
  { destruct (token_hex_returns n _ s2 H2) as (Hn & _). exact Hn. }
  rewrite (token_hex_nonneg m rng Hm) in H2 |- *. cbn [snd] in *.
  rewrite (token_hex_nonneg n _ Hn) in H2 |- *. cbn [fst snd] in *.
  injection H2 as <-. split.
  - unfold SHA256.hexlify. rewrite <- flat_map_app. f_equal.
    rewrite Z2Nat.inj_add by lia. rewrite seq_app, map_app. f_equal.
    apply (map_seq_offset (fun i => rng i mod 256) (Z.to_nat m) (Z.to_nat n) 0%nat).
  - intros i. rewrite Hrng3, Z2Nat.inj_add by lia. f_equal. lia.
Qed.

Lemma generate_secure_random_concat_witness :
  pystr "00254a6f94" = pystr "0025" ++ pystr "4a6f94" /\
  (forall i,
     snd (generate_secure_random 3 (snd (generate_secure_random 2 (fun i => Z.of_nat i * 37)))) i =
     snd (generate_secure_random (2 + 3) (fun i => Z.of_nat i * 37)) i).
Proof.
  apply (generate_secure_random_concat 2 3 (fun i => Z.of_nat i * 37)
           (pystr "0025") (pystr "4a6f94") (pystr "00254a6f94"));
    vm_compute; reflexivity.
Defined.

(** X4. [generate_id()] returns 32 characters of [0-9a-f]: a string
    [is_valid_hex] accepts, and one that neither [is_valid_salt] nor
    [is_valid_commitment_hash] accepts, being too short. *)
Theorem generate_id_is_not_a_salt (rng : entropy) :
  exists id,
    fst (generate_id rng) = Return id /\
    length id = 32%nat /\
    Forall (fun ch => is_lower_hex ch = true) id /\
    is_valid_hex id = Return true /\
    is_valid_salt id = Return false /\
    is_valid_commitment_hash id = Return false.
Proof.
  unfold generate_id. rewrite (token_hex_nonneg 16 rng) by lia.
  set (bs := map (fun i => rng i mod 256) (seq 0 (Z.to_nat 16))).
  assert (Hlen : length (SHA256.hexlify bs) = 32%nat).
  { rewrite hexlify_length. unfold bs. rewrite length_map, length_seq. reflexivity. }
  assert (Hhex : is_valid_hex (SHA256.hexlify bs) = Return true).
  { apply is_valid_hex_hex.
    - intros Hnil. rewrite Hnil in Hlen. discriminate.
    - apply lower_hex_is_hex_digit, hexlify_lower_hex, urandom_bytes_range. }
  exists (SHA256.hexlify bs). cbn [fst].
  split; [reflexivity|]. split; [exact Hlen|].
  split; [apply hexlify_lower_hex, urandom_bytes_range|]. split; [exact Hhex|].
  unfold is_valid_salt, is_valid_commitment_hash. rewrite Hhex. cbn [bind].
  rewrite Hlen. split; reflexivity.
Qed.

(** ** Commitments *)

(** X5. [create_vote_commitment(value, voter)], for a value that has
    UTF-8 bytes, returns a pair [(hash, salt)] in which the salt is a
    valid salt, the hash a valid commitment hash, and which
    [verify_vote_commitment(value, salt, hash)] accepts. The voter does
    not enter the result: every voter gets the same pair from the same
    randomness. The 32 bytes of the salt are consumed in every case. *)
Theorem create_vote_commitment_verifies (value voter : list Z) (rng : entropy) :
  utf8_encodable value = true ->
  exists h salt,
    fst (create_vote_commitment value voter rng) = Return (h, salt) /\
    is_valid_salt salt = Return true /\
    is_valid_commitment_hash h = Return true /\
    verify_vote_commitment value salt h = Return true /\
    (forall voter', create_vote_commitment value voter' rng =
                    create_vote_commitment value voter rng) /\
    (forall i, snd (create_vote_commitment value voter rng) i = rng (i + 32)%nat).
Proof.
  intros Hv. destruct (generate_salt_is_valid_salt rng)
    as (salt & Hsalt & _ & _ & Hvalid & Henc & Hrng & _).
  unfold create_vote_commitment.
  destruct (generate_salt rng) as [r rng'] eqn:Hgen. cbn [fst snd] in *. subst r.
  cbn [bind]. rewrite (create_commitment_encodable value salt Hv Henc). cbn [bind fst snd].
  do 2 eexists. split; [reflexivity|]. split; [exact Hvalid|].
  split; [apply hexdigest_is_valid_commitment_hash|]. split; [|split].
  - unfold verify_vote_commitment, verify_commitment.
    rewrite (create_commitment_encodable value salt Hv Henc). cbn [bind].
    rewrite bool_decide_eq_true_2 by reflexivity. reflexivity.
  - reflexivity.
  - exact Hrng.
Qed.

Lemma create_vote_commitment_verifies_witness :
  exists h salt,
    fst (create_vote_commitment (pystr "yes") (pystr "alice") (fun i => Z.of_nat i * 37))
      = Return (h, salt) /\
    is_valid_salt salt = Return true /\
    is_valid_commitment_hash h = Return true /\
    verify_vote_commitment (pystr "yes") salt h = Return true /\
    (forall voter',
       create_vote_commitment (pystr "yes") voter' (fun i => Z.of_nat i * 37) =
       create_vote_commitment (pystr "yes") (pystr "alice") (fun i => Z.of_nat i * 37)) /\
    (forall i, snd (create_vote_commitment (pystr "yes") (pystr "alice")
                      (fun i => Z.of_nat i * 37)) i =
               (fun i => Z.of_nat i * 37) (i + 32)%nat).
Proof.
  apply (create_vote_commitment_verifies (pystr "yes") (pystr "alice")
           (fun i => Z.of_nat i * 37)).
  reflexivity.
Defined.

(** X6. The colon between value and salt is not escaped: moving a part
    [w] across it, from the end of the value to the front of the salt,
    changes neither the commitment nor what verifies. Two different
    pairs (value, salt) so related have the same commitment, whatever
    the strings are. *)
Theorem commitment_separator_is_ambiguous (v w s : list Z) :
  create_commitment (v ++ pystr ":" ++ w) s = create_commitment v (w ++ pystr ":" ++ s) /\
  (forall h,
     verify_commitment (v ++ pystr ":" ++ w) s h =
     verify_commitment v (w ++ pystr ":" ++ s) h).
Proof.
  assert (Hc : create_commitment (v ++ pystr ":" ++ w) s =
               create_commitment v (w ++ pystr ":" ++ s)).
  { unfold create_commitment. rewrite <- !app_assoc. reflexivity. }
  split; [exact Hc|]. intros h. unfold verify_commitment. rewrite Hc. reflexivity.
Qed.

(** X7. [verify_commitment(value, salt, h)] returns [True] for one hash
    only, the commitment of [(value, salt)]: a hash that verifies is the
    one [create_commitment] returns, has 64 characters of [0-9a-f] (no
    upper case), and passes [is_valid_commitment_hash]; two hashes that
    verify for the same pair are equal. *)
Theorem verify_commitment_accepts_one_hash (value salt h : list Z) :
  verify_commitment value salt h = Return true ->
  create_commitment value salt = Return h /\
  length h = 64%nat /\
  Forall (fun ch => is_lower_hex ch = true) h /\
  is_valid_commitment_hash h = Return true /\
  (forall h', verify_commitment value salt h' = Return true -> h' = h).
Proof.
  unfold verify_commitment, create_commitment.
  destruct (encode (value ++ pystr ":" ++ salt)) as [bs|e]; cbn [bind]; [|discriminate].
  intros Hv. injection Hv as Hv. apply bool_decide_eq_true_1 in Hv. subst h.
  split; [reflexivity|]. split; [apply hexdigest_length|].
  split; [apply hexdigest_lower_hex|].
  split; [apply hexdigest_is_valid_commitment_hash|].
  intros h' Hv'. injection Hv' as Hv'. apply bool_decide_eq_true_1 in Hv'.
  symmetry. exact Hv'.
Qed.

Lemma verify_commitment_accepts_one_hash_witness :
  create_commitment (pystr "yes") (pystr "0000000000000000") =
    Return (pystr "287b98fd85970330510d7c0ae82359fa9a83a327df85b036a75f56b7b92e71c6") /\
  length (pystr "287b98fd85970330510d7c0ae82359fa9a83a327df85b036a75f56b7b92e71c6") = 64%nat /\
  Forall (fun ch => is_lower_hex ch = true)
    (pystr "287b98fd85970330510d7c0ae82359fa9a83a327df85b036a75f56b7b92e71c6") /\
  is_valid_commitment_hash
    (pystr "287b98fd85970330510d7c0ae82359fa9a83a327df85b036a75f56b7b92e71c6") = Return true /\
  (forall h',
     verify_commitment (pystr "yes") (pystr "0000000000000000") h' = Return true ->
     h' = pystr "287b98fd85970330510d7c0ae82359fa9a83a327df85b036a75f56b7b92e71c6").
Proof.
  apply (verify_commitment_accepts_one_hash (pystr "yes") (pystr "0000000000000000")).
  vm_compute. reflexivity.
Defined.

(** X8. [hash_string(s)] returns, for a string that has UTF-8 bytes, 64
    characters of [0-9a-f] that [is_valid_commitment_hash] accepts, and
    raises [UnicodeEncodeError] for any other string; a commitment is the
    hash of the value, a colon and the salt joined, also when it raises. *)
Theorem hash_string_form (s : list Z) :
  (utf8_encodable s = true ->
   exists h, hash_string s = Return h /\ length h = 64%nat /\
             Forall (fun ch => is_lower_hex ch = true) h /\
             is_valid_commitment_hash h = Return true) /\
  (utf8_encodable s = false -> raises "UnicodeEncodeError" (hash_string s)) /\
  (forall value salt,
     s = value ++ pystr ":" ++ salt -> create_commitment value salt = hash_string s).
Proof.
  split; [|split].
  - intros Hs. unfold hash_string, encode. rewrite (encode_from_encodable s Hs).
    cbn [bind]. eexists. split; [reflexivity|]. split; [apply hexdigest_length|].
    split; [apply hexdigest_lower_hex|apply hexdigest_is_valid_commitment_hash].
  - intros Hs. unfold hash_string, encode.
    destruct (encode_from_not_encodable s Hs 0%nat) as [j Hj]. rewrite Hj. reflexivity.
  - intros value salt ->. reflexivity.
Qed.

Lemma hash_string_form_witness :
  (exists h, hash_string (pystr "yes:0000000000000000") = Return h /\ length h = 64%nat /\
             Forall (fun ch => is_lower_hex ch = true) h /\
             is_valid_commitment_hash h = Return true) /\
  raises "UnicodeEncodeError" (hash_string [0xD800]) /\
  create_commitment (pystr "yes") (pystr "0000000000000000") =
    hash_string (pystr "yes:0000000000000000").
Proof.
  split; [|split].
  - apply (proj1 (hash_string_form (pystr "yes:0000000000000000"))). reflexivity.
  - apply (proj1 (proj2 (hash_string_form [0xD800]))). reflexivity.
  - apply (proj2 (proj2 (hash_string_form (pystr "yes:0000000000000000")))). reflexivity.
Defined.

(** ** What [is_valid_hex] reads around the digits *)

Lemma skip_spaces_lead (lead rest : list Z) :
  Forall (fun ch => Py_ISSPACE ch = true) lead ->
  skip_spaces (lead ++ rest) = skip_spaces rest.
Proof.
  induction 1 as [|ch lead Hch _ IH]; [reflexivity|].
  rewrite <- app_comm_cons. cbn [skip_spaces]. rewrite Hch. exact IH.
Qed.

Lemma skip_spaces_all (s : list Z) :
  Forall (fun ch => Py_ISSPACE ch = true) s -> skip_spaces s = [].
Proof.
  intros Hs. rewrite <- (app_nil_r s), (skip_spaces_lead s [] Hs). reflexivity.
Qed.

Lemma space_facts (ch : Z) :
  Py_ISSPACE ch = true ->
  (ch <? 128) = true /\ (ch =? 95) = false /\ (ch =? 120) = false /\
  (ch =? 88) = false /\ (PyLong_DigitValue ch <? 16) = false.
Proof.
  unfold Py_ISSPACE. rewrite orb_true_iff, andb_true_iff, !Z.leb_le, Z.eqb_eq.
  intros Hc. split; [apply Z.ltb_lt; lia|].
  repeat (split; [apply Z.eqb_neq; lia|]).
  unfold PyLong_DigitValue.
  repeat match goal with
         | |- context [Z.leb ?x ?y] => destruct (Z.leb_spec x y); cbn [andb]
         end; try lia; reflexivity.
Qed.

Lemma scan_digits_hex_then_spaces (ds trail : list Z) :
  Forall (fun ch => is_hex_digit ch = true) ds ->
  Forall (fun ch => Py_ISSPACE ch = true) trail ->
  forall prev acc n, (prev =? 95) = false ->
  exists z, scan_digits prev acc n (ds ++ trail) = Some (z, (n + length ds)%nat, trail).
Proof.
  intros Hds Htrail. induction Hds as [|ch ds Hch _ IH]; intros prev acc n Hprev.
  - cbn [List.app length]. rewrite Nat.add_0_r. destruct Htrail as [|sp trail Hsp _].
    + cbn. rewrite Hprev. eauto.
    + destruct (space_facts sp Hsp) as (_ & H95 & _ & _ & Hdv).
      cbn [scan_digits]. rewrite H95, Hdv, Hprev. eauto.
  - destruct (hex_digit_neq ch Hch) as (_ & _ & H95 & _).
    cbn [List.app scan_digits length]. rewrite H95, (hex_digit_value ch Hch).
    destruct (IH ch (acc * 16 + PyLong_DigitValue ch) (S n) H95) as [z Hz].
    exists z. rewrite Hz, Nat.add_succ_r. reflexivity.
Qed.

(** The digits alone, with white space behind them. *)
Lemma PyLong_FromString_digits (d : Z) (ds trail : list Z) :
  Forall (fun ch => is_hex_digit ch = true) (d :: ds) ->
  Forall (fun ch => Py_ISSPACE ch = true) trail ->
  exists z, PyLong_FromString (d :: ds ++ trail) = Some (z, []).
Proof.
  intros Hds Htrail. pose proof Hds as Hds'. apply Forall_cons in Hds' as [Hd Hrest].
  destruct (hex_digit_neq d Hd) as (H43 & H45 & H95 & _).
  destruct (scan_digits_hex_then_spaces (d :: ds) trail Hds Htrail 0 0 0%nat eq_refl)
    as [z Hz].
  exists (1 * z). unfold PyLong_FromString.
  cbn [skip_spaces]. rewrite (hex_digit_not_space d Hd), H43, H45.
  assert (Hprefix :
    match d :: ds ++ trail with
    | c0 :: c1 :: rest =>
        if (c0 =? 48) && ((c1 =? 120) || (c1 =? 88)) then
          match rest with
          | c2 :: rest' => if c2 =? 95 then rest' else rest
          | [] => rest
          end
        else d :: ds ++ trail
    | _ => d :: ds ++ trail
    end = d :: ds ++ trail).
  { destruct ds as [|c1 ds'].
    - destruct Htrail as [|sp trail Hsp _]; [reflexivity|].
      destruct (space_facts sp Hsp) as (_ & _ & H120 & H88 & _).
      cbn [List.app]. rewrite H120, H88, andb_false_r. reflexivity.
    - apply Forall_cons in Hrest as [Hc1 _].
      destruct (hex_digit_neq c1 Hc1) as (_ & _ & _ & H120 & H88).
      cbn [List.app]. rewrite H120, H88, andb_false_r. reflexivity. }
  rewrite Hprefix, H95. change (d :: ds ++ trail) with ((d :: ds) ++ trail).
  rewrite Hz. cbn [length Nat.add]. rewrite (skip_spaces_all trail Htrail). reflexivity.
Qed.

(** The digits behind [0x] or [0X]. *)
Lemma PyLong_FromString_prefixed (x d : Z) (ds trail : list Z) :
  x = 120 \/ x = 88 ->
  Forall (fun ch => is_hex_digit ch = true) (d :: ds) ->
  Forall (fun ch => Py_ISSPACE ch = true) trail ->
  exists z, PyLong_FromString (48 :: x :: d :: ds ++ trail) = Some (z, []).
Proof.
  intros Hx Hds Htrail. pose proof Hds as Hds'. apply Forall_cons in Hds' as [Hd _].
  destruct (hex_digit_neq d Hd) as (_ & _ & H95 & _).
  destruct (scan_digits_hex_then_spaces (d :: ds) trail Hds Htrail 0 0 0%nat eq_refl)
    as [z Hz].
  assert (Hxb : (x =? 120) || (x =? 88) = true) by (destruct Hx; subst x; reflexivity).
  exists (1 * z). unfold PyLong_FromString. cbn [skip_spaces].
  change (Py_ISSPACE 48) with false. cbv beta iota zeta.
  change (48 =? 43) with false. change (48 =? 45) with false. cbv beta iota zeta.
  change (48 =? 48) with true. rewrite Hxb. cbn [andb]. cbv beta iota zeta.
  rewrite H95. cbv beta iota zeta. rewrite H95.
  change (d :: ds ++ trail) with ((d :: ds) ++ trail).
  rewrite Hz. cbn [length Nat.add]. rewrite (skip_spaces_all trail Htrail). reflexivity.
Qed.

(** A sign in front of a number that starts with a digit. *)
Lemma PyLong_FromString_signed (sg c0 : Z) (rest : list Z) :
  sg = 43 \/ sg = 45 ->
  is_hex_digit c0 = true ->
  (exists z, PyLong_FromString (c0 :: rest) = Some (z, [])) ->
  exists z, PyLong_FromString (sg :: c0 :: rest) = Some (z, []).
Proof.
  intros Hsg Hc0 [z Hz]. unfold PyLong_FromString in *.
  destruct (hex_digit_neq c0 Hc0) as (H43 & H45 & _).
  cbn [skip_spaces] in *. rewrite (hex_digit_not_space c0 Hc0), H43, H45 in Hz.
  assert (Hns : Py_ISSPACE sg = false) by (destruct Hsg; subst sg; reflexivity).
  rewrite Hns.
  set (body := fun (sign : Z) (s : list Z) =>
    let s :=
      match s with
      | c0 :: c1 :: rest =>
          if (c0 =? 48) && ((c1 =? 120) || (c1 =? 88)) then
            match rest with
            | c2 :: rest' => if c2 =? 95 then rest' else rest
            | [] => rest
            end
          else s
      | _ => s
      end in
    let leading_underscore :=
      match s with
      | ch :: _ => ch =? 95
      | [] => false
      end in
    if leading_underscore then None
    else
      match scan_digits 0 0 0 s with
      | None => None
      | Some (z, digits, rest) =>
          match digits with
          | O => None
          | S _ =>
              let rest := skip_spaces rest in
              match rest with
              | [] => Some (sign * z, rest)
              | ch :: _ => if ch =? 0 then Some (sign * z, rest) else None
              end
          end
      end).
  change (body 1 (c0 :: rest) = Some (z, [])) in Hz.
  assert (Hbody : forall sign, exists z', body sign (c0 :: rest) = Some (z', [])).
  { intros sign. unfold body in *. cbv zeta in *.
    destruct (match c0 :: rest with
              | c1 :: c2 :: rest0 =>
                  if (c1 =? 48) && ((c2 =? 120) || (c2 =? 88)) then
                    match rest0 with
                    | c3 :: rest' => if c3 =? 95 then rest' else rest0
                    | [] => rest0
                    end
                  else c0 :: rest
              | _ => c0 :: rest
              end) as [|u s'] eqn:Hs.
    - destruct (scan_digits 0 0 0 []) as [[[z0 [|k]] r]|]; try discriminate.
      destruct (skip_spaces r) as [|ch r']; [eauto|].
      destruct (ch =? 0); [|discriminate]. discriminate.
    - destruct (u =? 95); [discriminate|].
      destruct (scan_digits 0 0 0 (u :: s')) as [[[z0 [|k]] r]|]; try discriminate.
      destruct (skip_spaces r) as [|ch r']; [eauto|].
      destruct (ch =? 0); discriminate. }
  destruct Hsg; subst sg.
  - change (43 =? 43) with true. cbv beta iota zeta. apply (Hbody 1).
  - change (45 =? 43) with false. change (45 =? 45) with true. cbv beta iota zeta.
    apply (Hbody (-1)).
Qed.

Lemma PyLong_FromString_lead (lead s : list Z) :
  Forall (fun ch => Py_ISSPACE ch = true) lead ->
  PyLong_FromString (lead ++ s) = PyLong_FromString s.
Proof.
  intros Hlead. unfold PyLong_FromString. rewrite (skip_spaces_lead lead s Hlead).
  reflexivity.
Qed.

Lemma transform_ascii (s : list Z) :
  Forall (fun ch => (ch <? 128) = true) s ->
  PyUnicode_TransformDecimalAndSpaceToASCII s = s.
Proof.
  intros Hs. unfold PyUnicode_TransformDecimalAndSpaceToASCII.
  assert (Hall : forallb (fun ch => ch <? 128) s = true).
  { apply forallb_forall. intros ch Hin. rewrite Forall_forall in Hs.
    apply Hs, list_elem_of_In, Hin. }
  rewrite Hall. reflexivity.
Qed.

Lemma spaces_ascii (s : list Z) :
  Forall (fun ch => Py_ISSPACE ch = true) s -> Forall (fun ch => (ch <? 128) = true) s.
Proof.
  intros Hs. eapply Forall_impl; [exact Hs|]. intros ch Hch. apply (space_facts ch Hch).
Qed.

Lemma hex_digits_ascii (s : list Z) :
  Forall (fun ch => is_hex_digit ch = true) s -> Forall (fun ch => (ch <? 128) = true) s.
Proof.
  intros Hs. eapply Forall_impl; [exact Hs|]. intros ch Hch. apply (hex_digit_ascii ch Hch).
Qed.

(** X9. [is_valid_hex] accepts every string made of white space, an
    optional sign, an optional prefix [0x] or [0X], at least one
    hexadecimal digit, and white space; so [is_valid_commitment_hash]
    and [is_valid_salt] accept every such string of 64 characters, which
    has fewer than 64 digits as soon as one of the decorations is there. *)
Theorem is_valid_hex_reads_decorations (lead sign prefix digits trail : list Z) :
  Forall (fun ch => Py_ISSPACE ch = true) lead ->
  Forall (fun ch => Py_ISSPACE ch = true) trail ->
  sign = [] \/ sign = pystr "+" \/ sign = pystr "-" ->
  prefix = [] \/ prefix = pystr "0x" \/ prefix = pystr "0X" ->
  digits <> [] -> Forall (fun ch => is_hex_digit ch = true) digits ->
  let s := lead ++ sign ++ prefix ++ digits ++ trail in
  is_valid_hex s = Return true /\
  (length s = 64%nat ->
   is_valid_commitment_hash s = Return true /\ is_valid_salt s = Return true).
Proof.
  intros Hlead Htrail Hsign Hprefix Hne Hdigits s.
  assert (Hvalid : is_valid_hex s = Return true).
  { unfold is_valid_hex, int16. rewrite transform_ascii.
    - unfold s. rewrite (PyLong_FromString_lead lead _ Hlead).
      destruct digits as [|d ds]; [congruence|].
      pose proof Hdigits as Hd. apply Forall_cons in Hd as [Hd _].
      assert (Hzero : is_hex_digit 48 = true) by reflexivity.
      assert (Hparse : exists z, PyLong_FromString (sign ++ prefix ++ (d :: ds) ++ trail)
                                 = Some (z, [])).
      { destruct Hsign as [-> | [-> | ->]]; destruct Hprefix as [-> | [-> | ->]];
          cbn [pystr list_ascii_of_string map nat_of_ascii List.app];
          repeat match goal with
                 | |- context [Z.of_nat ?n] =>
                     let v := eval vm_compute in (Z.of_nat n) in
                     change (Z.of_nat n) with v
                 end;
          rewrite <- ?app_comm_cons;
          first
            [ apply PyLong_FromString_digits; assumption
            | apply PyLong_FromString_prefixed; [tauto|assumption|assumption]
            | apply PyLong_FromString_signed;
              [tauto|assumption|
               first [ apply PyLong_FromString_digits; assumption
                     | apply PyLong_FromString_prefixed; [tauto|assumption|assumption] ]] ]. }
      destruct Hparse as [z Hz]. rewrite Hz. reflexivity.
    - unfold s. repeat apply Forall_app_2.
      + apply spaces_ascii, Hlead.
      + destruct Hsign as [-> | [-> | ->]]; repeat constructor.
      + destruct Hprefix as [-> | [-> | ->]]; repeat constructor.
      + apply hex_digits_ascii, Hdigits.
      + apply spaces_ascii, Htrail. }
  split; [exact Hvalid|]. intros Hlen.
  unfold is_valid_commitment_hash, is_valid_salt. rewrite Hvalid. cbn [bind].
  rewrite bool_decide_eq_true_2 by exact Hlen. split; reflexivity.
Qed.

Lemma is_valid_hex_reads_decorations_witness :
  let s := pystr " " ++ pystr "-" ++ pystr "0x" ++ repeat 97 59 ++ pystr " " in
  is_valid_hex s = Return true /\
  (length s = 64%nat ->
   is_valid_commitment_hash s = Return true /\ is_valid_salt s = Return true).
Proof.
  apply (is_valid_hex_reads_decorations (pystr " ") (pystr "-") (pystr "0x")
           (repeat 97 59) (pystr " ")).
  - repeat constructor.
  - repeat constructor.
  - right. right. reflexivity.
  - right. left. reflexivity.
  - discriminate.
  - apply Forall_forall. intros ch Hin. apply list_elem_of_In, repeat_spec in Hin.
    subst ch. reflexivity.
Defined.

(** X10. [is_valid_hex] rejects every string without a digit in the
    place of the number: the empty string, a string of white space only,
    also with a sign or a prefix [0x] and nothing behind it. *)
Theorem is_valid_hex_rejects_blank (lead sign prefix trail : list Z) :
  Forall (fun ch => Py_ISSPACE ch = true) lead ->
  Forall (fun ch => Py_ISSPACE ch = true) trail ->
  sign = [] \/ sign = pystr "+" \/ sign = pystr "-" ->
  prefix = [] \/ prefix = pystr "0x" \/ prefix = pystr "0X" ->
  is_valid_hex (lead ++ sign ++ prefix ++ trail) = Return false.
Proof.
  intros Hlead Htrail Hsign Hprefix.
  unfold is_valid_hex, int16. rewrite transform_ascii.
  - rewrite (PyLong_FromString_lead lead _ Hlead).
    assert (Hparse : PyLong_FromString (sign ++ prefix ++ trail) = None).
    { destruct Htrail as [|sp trail Hsp Htrail].
      - destruct Hsign as [-> | [-> | ->]]; destruct Hprefix as [-> | [-> | ->]];
          reflexivity.
      - destruct (space_facts sp Hsp) as (_ & H95 & H120 & H88 & Hdv).
        assert (H43 : (sp =? 43) = false /\ (sp =? 45) = false).
        { unfold Py_ISSPACE in Hsp.
          rewrite orb_true_iff, andb_true_iff, !Z.leb_le, Z.eqb_eq in Hsp.
          split; apply Z.eqb_neq; lia. }
        destruct H43 as [H43 H45].
        assert (H48 : (sp =? 48) = false).
        { unfold Py_ISSPACE in Hsp.
          rewrite orb_true_iff, andb_true_iff, !Z.leb_le, Z.eqb_eq in Hsp.
          apply Z.eqb_neq; lia. }
        assert (Hskip : skip_spaces (sp :: trail) = [])
          by (apply skip_spaces_all; constructor; assumption).
        destruct trail as [|c1 rest].
        all:
        destruct Hsign as [-> | [-> | ->]]; destruct Hprefix as [-> | [-> | ->]];
          unfold PyLong_FromString;
          cbn [pystr list_ascii_of_string map nat_of_ascii List.app];
          repeat match goal with
                 | |- context [Z.of_nat ?n] =>
                     let v := eval vm_compute in (Z.of_nat n) in
                     change (Z.of_nat n) with v
                 end;
          rewrite ?Hskip; cbn [skip_spaces];
          repeat first
            [ progress cbv beta iota zeta
            | progress change (Py_ISSPACE 43) with false
            | progress change (Py_ISSPACE 45) with false
            | progress change (Py_ISSPACE 48) with false
            | progress change (43 =? 43) with true
            | progress change (45 =? 43) with false
            | progress change (45 =? 45) with true
            | progress change (48 =? 43) with false
            | progress change (48 =? 45) with false
            | progress change (48 =? 48) with true
            | progress change ((120 =? 120) || (120 =? 88)) with true
            | progress change ((88 =? 120) || (88 =? 88)) with true
            | progress cbn [andb scan_digits]
            | rewrite H95 | rewrite Hdv | rewrite H120 | rewrite H88 | rewrite H48
            | rewrite andb_false_r
            | progress change (0 =? 95) with false ];
          try reflexivity. }
    rewrite Hparse. reflexivity.
  - repeat apply Forall_app_2.
    + apply spaces_ascii, Hlead.
    + destruct Hsign as [-> | [-> | ->]]; repeat constructor.
    + destruct Hprefix as [-> | [-> | ->]]; repeat constructor.
    + apply spaces_ascii, Htrail.
Qed.

Lemma is_valid_hex_rejects_blank_witness :
  is_valid_hex (pystr "  " ++ pystr "+" ++ pystr "0x" ++ pystr " ") = Return false.
Proof.
  apply (is_valid_hex_rejects_blank (pystr "  ") (pystr "+") (pystr "0x") (pystr " ")).
  - repeat constructor.
  - repeat constructor.
  - right. left. reflexivity.
  - right. left. reflexivity.
Defined.

(** ** The registry under [on] and [off] *)

Section RegistryMore.
Context `{Collaborators}.

Lemma lookup_on (c : VoteClient) (t k : list Z) (h : handler) :
  event_handlers (on c t h) !! k =
  if decide (t = k) then Some (handlers_for c t ++ [h]) else event_handlers c !! k.
Proof.
  unfold handlers_for, on. cbn [event_handlers set_event_handlers].
  rewrite lookup_alter. destruct (decide (t = k)) as [->|Hne].
  - destruct (event_handlers c !! k) as [l|] eqn:Hl; cbn.
    + rewrite Hl. reflexivity.
    + rewrite lookup_insert_eq. reflexivity.
  - destruct (event_handlers c !! t) as [l|]; [reflexivity|].
    rewrite lookup_insert_ne by exact Hne. reflexivity.
Qed.

Lemma handlers_for_off (c : VoteClient) (t : list Z) (L : handler) :
  handlers_for (off c t L) t =
  match list_remove_first L (handlers_for c t) with
  | Return l' => l'
  | Raise _ => handlers_for c t
  end.
Proof.
  unfold handlers_for, off. destruct (event_handlers c !! t) as [l|] eqn:Hl; cbn.
  - destruct (list_remove_first L l) as [l'|e]; cbn [event_handlers set_event_handlers].
    + rewrite lookup_insert_eq. reflexivity.
    + rewrite Hl. reflexivity.
  - rewrite Hl. reflexivity.
Qed.

Lemma handlers_for_off_other (c : VoteClient) (t t' : list Z) (L : handler) :
  t' <> t -> handlers_for (off c t L) t' = handlers_for c t'.
Proof.
  intros Hne. unfold handlers_for, off.
  destruct (event_handlers c !! t) as [l|]; [|reflexivity].
  destruct (list_remove_first L l) as [l'|e]; [|reflexivity].
  cbn [event_handlers set_event_handlers].
  rewrite lookup_insert_ne by congruence. reflexivity.
Qed.


End RegistryMore.

(** X11. Registering a listener and removing it again. When [L] was not
    registered for [t], [off(t, L)] after [on(t, L)] gives back the list
    of [t]. When it was, [off] removes the earlier registration, not the
    one just added: the listeners before and after it keep their order
    and [L] is now last. The lists of the other types are as before. *)
Theorem on_then_off `{Collaborators} (c : VoteClient) (t : list Z) (L : handler) :
  (L ∉ handlers_for c t -> handlers_for (off (on c t L) t L) t = handlers_for c t) /\
  (forall before after,
     handlers_for c t = before ++ L :: after -> L ∉ before ->
     handlers_for (off (on c t L) t L) t = before ++ after ++ [L]) /\
  (forall t', t' <> t -> handlers_for (off (on c t L) t L) t' = handlers_for c t').
Proof.
  split; [|split].
  - intros Hnot. rewrite handlers_for_off, handlers_for_on.
    destruct (decide (t = t)); [|congruence].
    rewrite (list_remove_first_found L (handlers_for c t) [] Hnot), app_nil_r.
    reflexivity.
  - intros before after Hl Hnot. rewrite handlers_for_off, handlers_for_on.
    destruct (decide (t = t)); [|congruence].
    rewrite Hl, <- app_assoc, <- app_comm_cons.
    rewrite (list_remove_first_found L before (after ++ [L]) Hnot). reflexivity.
  - intros t' Hne. rewrite handlers_for_off_other by exact Hne.
    rewrite handlers_for_on. destruct (decide (t = t')); [congruence|reflexivity].
Qed.

Lemma on_then_off_witness :
  let c := register_all (H := Demo.env) (VoteClient_init (Demo.cfg None))
             [(pystr "results", 1%nat); (pystr "results", 2%nat); (pystr "results", 3%nat)] in
  handlers_for (off (on c (pystr "results") 7%nat) (pystr "results") 7%nat) (pystr "results")
    = [1%nat; 2%nat; 3%nat] /\
  handlers_for (off (on c (pystr "results") 2%nat) (pystr "results") 2%nat) (pystr "results")
    = [1%nat; 3%nat; 2%nat].
Proof.
  intros c. split.
  - rewrite (proj1 (on_then_off (H := Demo.env) c (pystr "results") 7%nat)).
    + vm_compute. reflexivity.
    + intros Hin. apply list_elem_of_In in Hin. vm_compute in Hin.
      destruct Hin as [Heq|[Heq|[Heq|[]]]]; discriminate.
  - apply (proj1 (proj2 (on_then_off (H := Demo.env) c (pystr "results") 2%nat))
             [1%nat] [3%nat]).
    + vm_compute. reflexivity.
    + intros Hin. apply list_elem_of_In in Hin. destruct Hin as [Heq|[]]. discriminate.
Defined.

(** X12. Registrations for different event types do not interfere:
    [on(t1, h1)] and [on(t2, h2)] with [t1 <> t2] give the same client
    in either order. *)
Theorem on_commutes_across_types `{Collaborators}
    (c : VoteClient) (t1 t2 : list Z) (h1 h2 : handler) :
  t1 <> t2 -> on (on c t1 h1) t2 h2 = on (on c t2 h2) t1 h1.
Proof.
  intros Hne.
  assert (Hmap : event_handlers (on (on c t1 h1) t2 h2) =
                 event_handlers (on (on c t2 h2) t1 h1)).
  { apply map_eq. intros k. rewrite !lookup_on, !handlers_for_on.
    destruct (decide (t1 = t2)); [congruence|].
    destruct (decide (t2 = t1)); [congruence|].
    destruct (decide (t2 = k)) as [->|]; destruct (decide (t1 = k)) as [->|];
      congruence. }
  transitivity (set_event_handlers c (event_handlers (on (on c t1 h1) t2 h2)));
    [reflexivity|].
  rewrite Hmap. reflexivity.
Qed.

Lemma on_commutes_across_types_witness :
  on (H := Demo.env)
     (on (H := Demo.env) (VoteClient_init (Demo.cfg None)) (pystr "results") 1%nat)
     (pystr "reveal") 2%nat =
  on (H := Demo.env)
     (on (H := Demo.env) (VoteClient_init (Demo.cfg None)) (pystr "reveal") 2%nat)
     (pystr "results") 1%nat.
Proof. apply (on_commutes_across_types (H := Demo.env)). discriminate. Defined.



(** ** What the request methods return and raise *)

Section RequestsMore.
Context `{Collaborators}.

Lemma handle_http_error_class (response : Response) : sdk_error (_handle_http_error response).
Proof.
  unfold _handle_http_error, sdk_error.
  destruct (json response) as [o|e]; cbn [bind]; [|right; reflexivity].
  destruct o; cbn [py_get bind]; try (right; reflexivity).
  destruct (dict_lookup items (pystr "message"));
    destruct (dict_lookup items (pystr "code"));
    destruct (dict_lookup items (pystr "details")); left; reflexivity.
Qed.

Lemma request_method_raises {A : Type} (failure : list Z) (req : Request)
    (c : VoteClient) (body : Response -> result A) (e : exn) :
  request_method failure req c body = Raise e -> sdk_error e.
Proof.
  unfold request_method. destruct (send (http_client c) req) as [response|e0].
  - destruct (raise_for_status response).
    + intros Heq. injection Heq as <-. apply handle_http_error_class.
    + destruct (body response) as [a|e1]; [discriminate|].
      intros Heq. injection Heq as <-. left. reflexivity.
  - intros Heq. injection Heq as <-. left. reflexivity.
Qed.

Lemma request_method_transport {A : Type} (failure : list Z) (req : Request)
    (c : VoteClient) (body : Response -> result A) (e : exn) :
  send (http_client c) req = Raise e ->
  request_method failure req c body =
  Raise (VoteError (PStr (failure ++ str_exn e)) PNone (PDict [])).
Proof. intros Hsend. unfold request_method. rewrite Hsend. reflexivity. Qed.

Lemma request_method_success {A : Type} (failure : list Z) (req : Request)
    (c : VoteClient) (body : Response -> result A) (response : Response) :
  send (http_client c) req = Return response ->
  raise_for_status response = false ->
  request_method failure req c body =
  match body response with
  | Return a => Return a
  | Raise e => Raise (VoteError (PStr (failure ++ str_exn e)) PNone (PDict []))
  end.
Proof.
  intros Hsend Hstatus. unfold request_method. rewrite Hsend, Hstatus.
  destruct (body response); reflexivity.
Qed.

End RequestsMore.

(** X14. Whatever the service and the transport do, an exception that
    leaves a request method is a [VoteError] or a [NetworkError]: no
    exception of the transport, of the JSON decoder or of the model
    validation reaches the caller. *)
Theorem request_methods_raise_sdk_errors `{Collaborators} (c : VoteClient) (e : exn) :
  (forall cfg, create_vote c cfg = Raise e -> sdk_error e) /\
  (forall vote_id, get_vote c vote_id = Raise e -> sdk_error e) /\
  (forall query, list_votes c query = Raise e -> sdk_error e) /\
  (forall vote_id, get_vote_stats c vote_id = Raise e -> sdk_error e) /\
  (forall vote_id, get_vote_phase c vote_id = Raise e -> sdk_error e) /\
  (forall vote_id request, commit_vote c vote_id request = Raise e -> sdk_error e) /\
  (forall vote_id request, reveal_vote c vote_id request = Raise e -> sdk_error e) /\
  (forall vote_id, get_results c vote_id = Raise e -> sdk_error e).
Proof.
  repeat split; intros; eapply request_method_raises; eassumption.
Qed.

Lemma request_methods_raise_sdk_errors_witness :
  sdk_error (VoteError (PStr (pystr "vote closed")) (PStr (pystr "VOTE_CLOSED")) (PDict [])).
Proof.
  apply (proj1 (proj2 (proj2 (proj2 (proj2 (proj2
           (request_methods_raise_sdk_errors (H := Demo.env)
              (VoteClient_init (Demo.cfg None))
              (VoteError (PStr (pystr "vote closed")) (PStr (pystr "VOTE_CLOSED"))
                         (PDict []))))))))
           (pystr "v1") Demo.commit_request).
  vm_compute. reflexivity.
Defined.

(** X15. A response with a 2xx status is read as follows by the methods
    that return a model. A body that is a JSON object gives what the
    model's constructor gives for exactly the entries of the object, and
    an exception of the constructor becomes a [VoteError] that starts
    with the method's failure text. A body that is JSON but not an
    object, and a body that is not JSON, give such a [VoteError] too:
    on this path a body that cannot be read is never a [NetworkError]. *)
Theorem success_response_is_decoded `{Collaborators} (c : VoteClient) (response : Response) :
  raise_for_status response = false ->
  let answered (req : Request) := send (http_client c) req = Return response in
  let decoded (failure : list Z) (cls : model_class) : result pyobj :=
    let wrap (e : exn) := Raise (VoteError (PStr (failure ++ str_exn e)) PNone (PDict [])) in
    match json response with
    | Return (PDict kw) =>
        match construct cls kw with
        | Return m => Return m
        | Raise e => wrap e
        end
    | Return _ => wrap (TypeError (pystr "argument after ** must be a mapping"))
    | Raise e => wrap e
    end in
  (forall vote_id, answered (get (pystr "/api/v1/votes/" ++ vote_id) None) ->
     get_vote c vote_id = decoded (pystr "Failed to get vote: ") Vote) /\
  (forall vote_id, answered (get (pystr "/api/v1/votes/" ++ vote_id ++ pystr "/stats") None) ->
     get_vote_stats c vote_id = decoded (pystr "Failed to get vote stats: ") VoteStats) /\
  (forall vote_id, answered (get (pystr "/api/v1/votes/" ++ vote_id ++ pystr "/phase") None) ->
     get_vote_phase c vote_id = decoded (pystr "Failed to get vote phase: ") VotePhase) /\
  (forall vote_id request,
     answered (post (pystr "/api/v1/votes/" ++ vote_id ++ pystr "/commit")
                 (CommitRequest_dict request)) ->
     commit_vote c vote_id request = decoded (pystr "Failed to commit vote: ") CommitResponse) /\
  (forall vote_id request,
     answered (post (pystr "/api/v1/votes/" ++ vote_id ++ pystr "/reveal")
                 (RevealRequest_dict request)) ->
     reveal_vote c vote_id request = decoded (pystr "Failed to reveal vote: ") RevealResponse) /\
  (forall vote_id, answered (get (pystr "/api/v1/votes/" ++ vote_id ++ pystr "/results") None) ->
     get_results c vote_id = decoded (pystr "Failed to get results: ") VoteResults).
Proof.
  intros Hstatus answered decoded.
  assert (Hbody : forall failure cls,
            match model_of_body cls response with
            | Return a => Return a
            | Raise e => Raise (VoteError (PStr (failure ++ str_exn e)) PNone (PDict []))
            end = decoded failure cls).
  { intros failure cls. unfold model_of_body, decoded.
    destruct (json response) as [o|e]; cbn [bind]; [|reflexivity].
    destruct o; cbn [kwargs bind]; try reflexivity. }
  repeat split; intros; rewrite <- Hbody; apply request_method_success; assumption.
Qed.

Lemma success_response_is_decoded_witness :
  get_results (H := Live.env) (VoteClient_init (Demo.cfg None)) (pystr "v1") =
  Return (PModel VoteResults [(pystr "vote_id", PInt 7)]).
Proof.
  pose proof (success_response_is_decoded (H := Live.env)
                (VoteClient_init (Demo.cfg None)) Live.created eq_refl) as Hall.
  cbv zeta in Hall. destruct Hall as (_ & _ & _ & _ & _ & Hresults).
  rewrite (Hresults (pystr "v1") eq_refl). reflexivity.
Defined.

(** X16. [create_vote], on a 2xx response whose body is a JSON object,
    returns the entry [vote_id] of the object as it is, whatever its
    type; when the object has no such entry it raises a [VoteError]
    whose message is ["Failed to create vote: "] followed by [str] of the
    [KeyError]. *)
Theorem create_vote_returns_the_entry `{Collaborators}
    (c : VoteClient) (cfg : VoteConfig) (response : Response) (items : list (list Z * pyobj)) :
  send (http_client c) (post (pystr "/api/v1/votes") (VoteConfig_dict cfg)) = Return response ->
  raise_for_status response = false ->
  json response = Return (PDict items) ->
  create_vote c cfg =
  match dict_lookup items (pystr "vote_id") with
  | Some v => Return v
  | None =>
      Raise (VoteError (PStr (pystr "Failed to create vote: " ++ str_exn (KeyError (pystr "vote_id"))))
                       PNone (PDict []))
  end.
Proof.
  intros Hsend Hstatus Hjson. unfold create_vote.
  rewrite (request_method_success _ _ c _ response Hsend Hstatus), Hjson.
  cbn [bind py_getitem]. destruct (dict_lookup items (pystr "vote_id")); reflexivity.
Qed.

Lemma create_vote_returns_the_entry_witness :
  create_vote (H := Live.env) (VoteClient_init (Demo.cfg None)) Demo.vote_config =
  Return (PInt 7).
Proof.
  rewrite (create_vote_returns_the_entry (H := Live.env)
             (VoteClient_init (Demo.cfg None)) Demo.vote_config Live.created
             [(pystr "vote_id", PInt 7)] eq_refl eq_refl eq_refl).
  reflexivity.
Defined.

(** X17. [health_check] returns [True] exactly when the request is
    answered with status 200: every other answer, also another 2xx
    status, and every failure of the transport give [False]. *)
Theorem health_check_true_iff `{Collaborators} (c : VoteClient) :
  health_check c = true <->
  exists response,
    send (http_client c) (get (pystr "/health") None) = Return response /\
    status_code response = 200.
Proof.
  unfold health_check. split.
  - destruct (send (http_client c) (get (pystr "/health") None)) as [response|e];
      [|discriminate].
    intros Heq. exists response. split; [reflexivity|]. apply Z.eqb_eq, Heq.
  - intros (response & Hsend & Hstatus). rewrite Hsend. apply Z.eqb_eq, Hstatus.
Qed.

(** ** The life of a connection *)

Section ChannelMore.
Context `{Collaborators}.

Lemma run_handlers_quiet (l : list handler) (ev : WebSocketEvent) :
  (forall h e w, fst (call h e w) = Return tt) ->
  forall st, log (run_handlers l ev st) = log st.
Proof.
  intros Hquiet. induction l as [|h l IH]; intros st; [reflexivity|].
  cbn [run_handlers]. pose proof (Hquiet h ev (app st)) as Hh.
  destruct (iscoroutinefunction h); destruct (call h ev (app st)) as [r w];
    cbn [fst] in Hh; subst r; rewrite IH; reflexivity.
Qed.

Lemma parse_failures_cons (m : list Z) (ms : list (list Z)) :
  parse_failures (m :: ms) =
  match parse_message m with
  | Return _ => parse_failures ms
  | Raise e => e :: parse_failures ms
  end.
Proof. unfold parse_failures. cbn. destruct (parse_message m); reflexivity. Qed.

Lemma listen_loop_log_quiet (c : VoteClient) (ms : list (list Z)) :
  (forall h e w, fst (call h e w) = Return tt) ->
  forall st,
  log (fold_left (fun s m => process_message c m s) ms st) =
  log st ++ map (fun e => (ERROR, pystr "Failed to process WebSocket message: " ++ str_exn e))
                (parse_failures ms).
Proof.
  intros Hquiet. induction ms as [|m ms IH]; intros st.
  - cbn. rewrite app_nil_r. reflexivity.
  - cbn [fold_left]. rewrite IH, parse_failures_cons.
    unfold process_message. destruct (parse_message m) as [ev|e]; cbn [map List.app].
    + unfold _handle_websocket_event. rewrite (run_handlers_quiet _ ev Hquiet). reflexivity.
    + cbn [log logger]. rewrite <- app_assoc. reflexivity.
Qed.

Lemma connect_websocket_success (c : VoteClient) (st : machine) (u : list Z) (ws : WebSocket) :
  websocket_url (config c) = Some u -> u <> [] -> websockets_connect u = Return ws ->
  connect_websocket c st =
  (Return tt,
   {| config := config c; http_client := http_client c; websocket := Some ws;
      event_handlers := event_handlers c; _websocket_task := Some ListenerTask |},
   logger INFO (pystr "WebSocket connected") st).
Proof.
  intros Hu Hne Hws. unfold connect_websocket. rewrite Hu.
  rewrite bool_decide_eq_false_2 by exact Hne.
  change (default [] (Some u)) with u. rewrite Hws. reflexivity.
Qed.

End ChannelMore.



(** X19. The listener never invokes a listener for an event of a type
    it is not registered for, nor for a message that did not parse:
    every invocation made during a run is of a listener registered for
    the type of an event that one of the connection's messages parsed
    to. Without a connection nothing is invoked. *)
Theorem listener_invokes_registered_only `{Collaborators}
    (c : VoteClient) (st : machine) (h : handler) (ev : WebSocketEvent) :
  In (h, ev) (calls (_websocket_listener c st)) ->
  In (h, ev) (calls st) \/
  exists ws, websocket c = Some ws /\
             In ev (parsed_events (frames ws)) /\ In h (handlers_for c (type ev)).
Proof.
  unfold _websocket_listener. destruct (websocket c) as [ws|].
  - assert (Hcalls : calls (match ending ws with
                            | EndOfStream =>
                                fold_left (fun s m => process_message c m s) (frames ws) st
                            | RaisesConnectionClosed =>
                                logger INFO (pystr "WebSocket connection closed")
                                  (fold_left (fun s m => process_message c m s) (frames ws) st)
                            | RaisesException e =>
                                logger ERROR (pystr "WebSocket error: " ++ str_exn e)
                                  (fold_left (fun s m => process_message c m s) (frames ws) st)
                            end) =
                     calls st ++ expected_calls c (parsed_events (frames ws))).
    { destruct (ending ws); cbn [calls logger]; apply listen_loop_calls. }
    rewrite Hcalls. intros Hin. apply in_app_or in Hin as [Hin|Hin]; [left; exact Hin|].
    right. exists ws. split; [reflexivity|].
    unfold expected_calls in Hin. apply in_flat_map in Hin as (ev' & Hev & Hin).
    apply in_map_iff in Hin as (h' & Heq & Hh). injection Heq as -> ->.
    split; assumption.
  - cbn [calls logger]. intros Hin. left. exact Hin.
Qed.

Lemma listener_invokes_registered_only_witness :
  let c := set_event_handlers (H := Demo.env) (VoteClient_init (Demo.cfg None))
             {[ pystr "results" := [1%nat; 2%nat] ]} in
  let c := {| config := config c; http_client := http_client c;
              websocket := Some Demo.connection;
              event_handlers := event_handlers c;
              _websocket_task := Some ListenerTask |} in
  In (2%nat, Demo.results_event) (calls Demo.start) \/
  exists ws, websocket c = Some ws /\
             In Demo.results_event (parsed_events (H := Demo.env) (frames ws)) /\
             In 2%nat (handlers_for c (type Demo.results_event)).
Proof.
  intros c0 c.
  apply (listener_invokes_registered_only (H := Demo.env) c Demo.start 2%nat Demo.results_event).
  vm_compute. right. left. reflexivity.
Defined.

(** X20. When no listener raises, the log of a run of the listener is
    exact: one error record per message that does not parse, in order of
    arrival, with [str] of its exception, and then the record of the way
    the connection ended (none for a normal end). Dispatching writes
    nothing. *)
Theorem listener_log_is_exact `{Collaborators}
    (c : VoteClient) (ws : WebSocket) (st : machine) :
  websocket c = Some ws ->
  (forall h e w, fst (call h e w) = Return tt) ->
  log (_websocket_listener c st) =
  log st
  ++ map (fun e => (ERROR, pystr "Failed to process WebSocket message: " ++ str_exn e))
         (parse_failures (frames ws))
  ++ ending_record (ending ws).
Proof.
  intros Hws Hquiet. unfold _websocket_listener. rewrite Hws.
  destruct (ending ws); cbn [log logger ending_record];
    rewrite (listen_loop_log_quiet c (frames ws) Hquiet);
    rewrite <- ?app_assoc, ?app_nil_r; reflexivity.
Qed.

Lemma listener_log_is_exact_witness :
  let c := set_event_handlers (H := Live.env) (VoteClient_init (Demo.cfg None))
             {[ pystr "results" := [1%nat; 2%nat] ]} in
  let c := {| config := config c; http_client := http_client c;
              websocket := Some Demo.connection;
              event_handlers := event_handlers c;
              _websocket_task := Some ListenerTask |} in
  log (_websocket_listener c Live.start) =
  [(ERROR, pystr "Failed to process WebSocket message: Expecting value");
   (INFO, pystr "WebSocket connection closed")].
Proof.
  intros c0 c.
  rewrite (listener_log_is_exact (H := Live.env) c Demo.connection Live.start eq_refl).
  - vm_compute. reflexivity.
  - intros h e w. reflexivity.
Defined.

(** X21. [disconnect_websocket] on any client that holds no
    connection, one that never connected among them, returns, leaves the
    client as it is and logs its record. After a successful
    [connect_websocket], when closing the connection succeeds, the
    connection is forgotten, the registry is the one from before
    connecting, and the task stays in [_websocket_task], so the client is
    not back in the state it had before connecting; a second
    [disconnect_websocket] then changes nothing in the client and logs
    its record again. *)
Theorem connect_then_disconnect `{Collaborators}
    (close : WebSocket -> result unit) (c : VoteClient) (st : machine) :
  (websocket c = None ->
   disconnect_websocket close c st =
   (Return tt, c, logger INFO (pystr "WebSocket disconnected") st)) /\
  (forall u ws,
     websocket_url (config c) = Some u -> u <> [] -> websockets_connect u = Return ws ->
     close ws = Return tt ->
     exists c1 st1 c2,
       connect_websocket c st = (Return tt, c1, st1) /\
       disconnect_websocket close c1 st1 =
         (Return tt, c2, logger INFO (pystr "WebSocket disconnected") st1) /\
       websocket c2 = None /\
       _websocket_task c2 = Some ListenerTask /\
       event_handlers c2 = event_handlers c /\
       (forall st2, disconnect_websocket close c2 st2 =
                    (Return tt, c2, logger INFO (pystr "WebSocket disconnected") st2))).
Proof.
  split.
  - intros Hnone. unfold disconnect_websocket. rewrite Hnone. reflexivity.
  - intros u ws Hu Hne Hws Hclose. do 3 eexists.
    split; [apply (connect_websocket_success c st u ws Hu Hne Hws)|].
    split.
    + unfold disconnect_websocket. cbn [websocket]. rewrite Hclose. cbn [bind]. reflexivity.
    + split; [reflexivity|]. split; [reflexivity|]. split; [reflexivity|].
      intros st2. reflexivity.
Qed.

Lemma connect_then_disconnect_witness :
  disconnect_websocket (H := Demo.env) (fun _ => Return tt)
    (VoteClient_init (Demo.cfg None)) Demo.start =
  (Return tt, VoteClient_init (Demo.cfg None),
   logger INFO (pystr "WebSocket disconnected") Demo.start) /\
  let c := VoteClient_init (H := Live.env) (Demo.cfg (Some (pystr "ws://node"))) in
  exists (c1 : @VoteClient Live.env) (st1 : @machine Live.env) (c2 : @VoteClient Live.env),
    connect_websocket c Live.start = (Return tt, c1, st1) /\
    disconnect_websocket (fun _ => Return tt) c1 st1 =
      (Return tt, c2, logger INFO (pystr "WebSocket disconnected") st1) /\
    websocket c2 = None /\
    _websocket_task c2 = Some ListenerTask /\
    event_handlers c2 = event_handlers c /\
    (forall st2, disconnect_websocket (fun _ => Return tt) c2 st2 =
                 (Return tt, c2, logger INFO (pystr "WebSocket disconnected") st2)).
Proof.
  split.
  - apply (proj1 (connect_then_disconnect (H := Demo.env) (fun _ => Return tt)
                    (VoteClient_init (Demo.cfg None)) Demo.start)).
    reflexivity.
  - intros c.
    apply (proj2 (connect_then_disconnect (H := Live.env) (fun _ => Return tt) c Live.start)
             (pystr "ws://node") Demo.connection).
    + reflexivity.
    + discriminate.
    + reflexivity.
    + reflexivity.
Defined.

(** X22. A client made by [create_vote_client] holds no connection and
    no task and has no listener for any type: dispatching an event to it
    changes nothing, and [off] on it is without effect. Its requests
    carry an [Authorization] header exactly when the configuration has a
    non-empty API key, and then it is ["Bearer "] followed by the key. *)
Theorem create_vote_client_is_fresh `{Collaborators} (cfg : VoteSDKConfig) :
  let c := create_vote_client cfg in
  Disconnected c /\
  (forall t, handlers_for c t = []) /\
  (forall ev st, _handle_websocket_event c ev st = st) /\
  (forall t L, off c t L = c) /\
  (forall v, In (pystr "Authorization", v) (headers (http_client c)) <->
             exists k, api_key cfg = Some k /\ k <> [] /\ v = pystr "Bearer " ++ k).
Proof.
  intros c. split; [split; reflexivity|]. split; [|split; [|split]].
  - intros t. unfold handlers_for, c, create_vote_client, VoteClient_init.
    cbn [event_handlers]. rewrite lookup_empty. reflexivity.
  - intros ev st. unfold _handle_websocket_event, c, create_vote_client, VoteClient_init.
    cbn [event_handlers]. rewrite lookup_empty. reflexivity.
  - intros t L. unfold off, c, create_vote_client, VoteClient_init.
    cbn [event_handlers]. rewrite lookup_empty. reflexivity.
  - intros v. unfold c, create_vote_client, VoteClient_init. cbn [http_client headers].
    split.
    + intros [Hct | Hin]; [discriminate|].
      destruct (api_key cfg) as [k|]; [|destruct Hin].
      destruct (decide (k = [])) as [->|Hne].
      * rewrite bool_decide_eq_true_2 in Hin by reflexivity. destruct Hin.
      * rewrite bool_decide_eq_false_2 in Hin by exact Hne.
        destruct Hin as [Heq|[]]. injection Heq as <-. eauto.
    + intros (k & Hk & Hne & ->). rewrite Hk.
      rewrite bool_decide_eq_false_2 by exact Hne. right. left. reflexivity.
Qed.
